(** * Safety Equipment Tracker: the entity store and the issue / equipment
    lifecycle of [final.py], embedded as functions on an explicit world
    (database tables and the Flask session), with the properties of the
    specification proved about them. *)

From Stdlib Require Import ZArith NArith List String Ascii Bool Lia Permutation.
From stdpp Require Import base option list fin_maps gmap.

Local Open Scope Z_scope.

(** ** Python values *)

(** A Python [str] is a sequence of code points. *)
Definition pystr := list N.

Definition str_of (s : string) : pystr :=
  List.map N_of_ascii (list_ascii_of_string s).

Global Arguments str_of : simpl never.

Definition pystr_eqb (a b : pystr) : bool := bool_decide (a = b).

(** [str.isspace] on one code point (CPython's [_PyUnicode_IsWhitespace]). *)
Definition isspace (c : N) : bool :=
  (((9 <=? c) && (c <=? 13)) || ((28 <=? c) && (c <=? 32))
   || (c =? 133) || (c =? 160) || (c =? 5760)
   || ((8192 <=? c) && (c <=? 8202))
   || (c =? 8232) || (c =? 8233) || (c =? 8239) || (c =? 8287)
   || (c =? 12288))%N.

Fixpoint lstrip (s : pystr) : pystr :=
  match s with
  | c :: s' => if isspace c then lstrip s' else s
  | [] => []
  end.

(** [s.strip()] *)
Definition strip (s : pystr) : pystr := rev (lstrip (rev (lstrip s))).

(** Truth value of a [str]: the empty string is falsy. *)
Definition truthy_str (s : pystr) : bool :=
  match s with [] => false | _ => true end.

(** Truth value of an optional integer ([None] and [0] are falsy). *)
Definition truthy_int (o : option Z) : bool :=
  match o with Some n => negb (n =? 0) | None => false end.

(** A [datetime.date] is kept as its proleptic Gregorian ordinal; the type
    only holds the ordinals of [date.min] to [date.max]. *)
Definition date := Z.
Definition date_min : date := 1.
Definition date_max : date := 3652059.
Definition valid_date (d : date) : Prop := date_min <= d <= date_max.

(** [timedelta(days=n)] raises [OverflowError] beyond 999999999 days, and
    [date + timedelta] raises it when the sum leaves the range of [date];
    [None] stands for the exception. *)
Definition timedelta_max_days : Z := 999999999.

Definition date_add_days (d : date) (n : Z) : option date :=
  if (Z.abs n <=? timedelta_max_days) && (date_min <=? d + n) && (d + n <=? date_max)
  then Some (d + n) else None.

(** A naive [datetime] as a number of microseconds. *)
Definition datetime := Z.

(** ** Models (the three tables) *)

(** The primary key [id] of a row is the key under which the row is stored
    in its table. *)

Record Employee := mkEmployee {
  employee_code : pystr;
  emp_name : pystr
}.

Record Equipment := mkEquipment {
  eq_name : pystr;
  expiry_date : date;
  employee_id : option Z;
  is_retired : bool;
  retired_on : option datetime
}.

Record Issue := mkIssue {
  equipment_id : Z;
  description : pystr;
  raised_on : option datetime;
  raised_by_employee_id : option Z;
  is_resolved : bool;
  resolved_on : option datetime
}.

Record Store := mkStore {
  employee_table : gmap Z Employee;
  equipment_table : gmap Z Equipment;
  issue_table : gmap Z Issue
}.

Definition empty_store : Store := mkStore ∅ ∅ ∅.

Definition set_employee_table (t : gmap Z Employee) (s : Store) : Store :=
  mkStore t (equipment_table s) (issue_table s).
Definition set_equipment_table (t : gmap Z Equipment) (s : Store) : Store :=
  mkStore (employee_table s) t (issue_table s).
Definition set_issue_table (t : gmap Z Issue) (s : Store) : Store :=
  mkStore (employee_table s) (equipment_table s) t.

(** The id the database gives to the next inserted row: 1 in an empty
    table, otherwise one more than the largest id in use. *)
Definition next_id {A} (t : gmap Z A) : Z :=
  match (map_to_list t).*1 with
  | [] => 1
  | k :: ks => 1 + foldr Z.max k ks
  end.

(** [db.session.add(row)] followed by the flush that assigns the id. *)
Definition add_row {A} (row : A) (t : gmap Z A) : gmap Z A :=
  <[next_id t := row]> t.

(** [Model.query.filter_by(...)]: the rows that satisfy [p], with their ids. *)
Definition filter_by {A} (p : A → bool) (t : gmap Z A) : list (Z * A) :=
  List.filter (λ r, p r.2) (map_to_list t).

(** [.first()] *)
Definition first {A} (rows : list (Z * A)) : option (Z * A) := head rows.

(** [.count()] *)
Definition count {A} (rows : list (Z * A)) : Z := Z.of_nat (length rows).

(** [.order_by(...)]: a stable insertion sort; [le] compares the sort keys. *)
Fixpoint insert_by {A} (le : A → A → bool) (x : A) (l : list A) : list A :=
  match l with
  | [] => [x]
  | y :: l' => if le x y then x :: l else y :: insert_by le x l'
  end.

Definition order_by {A} (le : A → A → bool) (rows : list A) : list A :=
  foldr (insert_by le) [] rows.

(** Lexicographic order of two strings by code point. *)
Fixpoint pystr_leb (a b : pystr) : bool :=
  match a, b with
  | [], _ => true
  | _ :: _, [] => false
  | x :: a', y :: b' => if (x <? y)%N then true else if (y <? x)%N then false else pystr_leb a' b'
  end.

(** [ORDER BY ... DESC] on a nullable timestamp; a NULL sorts below every
    value, so it comes last in descending order. *)
Definition datetime_desc (a b : option datetime) : bool :=
  match a, b with
  | _, None => true
  | None, Some _ => false
  | Some x, Some y => y <=? x
  end.

Definition by_name_asc (a b : Z * Employee) : bool := pystr_leb (emp_name a.2) (emp_name b.2).
Definition by_expiry_asc (a b : Z * Equipment) : bool := expiry_date a.2 <=? expiry_date b.2.
Definition by_raised_desc (a b : Z * Issue) : bool := datetime_desc (raised_on a.2) (raised_on b.2).

Lemma insert_by_Permutation {A} (le : A → A → bool) x l :
  Permutation (insert_by le x l) (x :: l).
Proof.
  induction l as [|y l IH]; simpl; [done|].
  destruct (le x y); [done|].
  rewrite IH. apply perm_swap.
Qed.

Lemma order_by_Permutation {A} (le : A → A → bool) l :
  Permutation (order_by le l) l.
Proof.
  induction l as [|x l IH]; simpl; [done|].
  rewrite insert_by_Permutation. by constructor.
Qed.

(** ** Configuration, session, requests and responses *)

(** [foreign_keys] tells whether the database behind [DATABASE_URL] checks
    foreign keys when a transaction commits: PostgreSQL does, the SQLite
    fallback [sqlite:///safety_v2.db] does not. *)
Record Config := mkConfig {
  NEAR_EXPIRY_DAYS : Z;
  ADMIN_PIN : pystr;
  foreign_keys : bool
}.

(** The clock as one request sees it: [utcnow k] is what the [k]-th call of
    [datetime.utcnow()] returns, [today] is [date.today()]. *)
Record Clock := mkClock {
  utcnow : nat → datetime;
  today : date
}.

(** The Flask session: the keys the application sets, and the queue of
    flashed messages. *)
Record Session := mkSession {
  sess_employee_id : option Z;
  sess_employee_name : option pystr;
  sess_is_admin : bool;
  flashes : list pystr
}.

(** [session.clear()] *)
Definition session_clear : Session := mkSession None None false [].

Record World := mkWorld {
  db : Store;
  session : Session
}.

Inductive Method := GET | POST.

Inductive Endpoint :=
| ep_root
| ep_login
| ep_logout
| ep_admin_login
| ep_my_dashboard
| ep_my_equipment
| ep_admin_dashboard
| ep_list_employees
| ep_add_employee
| ep_remove_employee (emp_id : Z)
| ep_list_equipment
| ep_add_equipment
| ep_assign_equipment (eq_id : Z)
| ep_list_issues
| ep_raise_issue (eq_id : Z)
| ep_resolve_issue (issue_id : Z)
| ep_delete_issue (issue_id : Z).

(** [request.form]: the posted fields in order; [get] returns the first
    value of a key. *)
Definition Form := list (string * pystr).

Fixpoint form_get (key : string) (f : Form) : option pystr :=
  match f with
  | [] => None
  | (k, v) :: f' => if String.eqb k key then Some v else form_get key f'
  end.

Record Request := mkRequest {
  method : Method;
  endpoint : Endpoint;
  form : Form
}.

(** [request.form.get(key) or ""] *)
Definition form_get_or_empty (key : string) (req : Request) : pystr :=
  match form_get key (form req) with
  | Some v => if truthy_str v then v else []
  | None => []
  end.

(** Near-expiry status of a table row, as the dashboard templates set it. *)
Inductive Status := ok | near.

Definition row_status (near_cutoff : date) (e : Equipment) : Status :=
  if expiry_date e <=? near_cutoff then near else ok.

(** The pages, each with the context its template is rendered with. *)
Inductive Page :=
| login_page
| admin_login_page
| my_dashboard_page (mine near_rows : list (Z * Equipment)) (near_cutoff : date)
| admin_dashboard_page (equipment : list (Z * Equipment))
    (total_emp total_eq open_issues : Z)
    (near_rows : list (Z * Equipment)) (near_cutoff : date)
| list_employees_page (employees : list (Z * Employee * list (Z * Equipment)))
| add_employee_page
| list_equipment_page (equipment : list (Z * Equipment))
| add_equipment_page
| assign_equipment_page (eq : Z * Equipment) (employees : list (Z * Employee))
| list_issues_page (issues : list (Z * Issue))
| raise_issue_page (eq : Z * Equipment).

Inductive Response :=
| Redirect (target : Endpoint)
| Render (page : Page) (messages : list pystr)
| Abort (status : Z).

(** ** Views *)

(** A view takes the world to a response and the world it leaves. A view
    that raises leaves the world as it found it: no view writes to the
    session or commits before the last statement that can raise. *)
Definition View := World → Response * World.

Definition abort (status : Z) : View := λ w, (Abort status, w).

Definition redirect (target : Endpoint) : View := λ w, (Redirect target, w).

Definition set_session (s : Session) (k : View) : View :=
  λ w, k (mkWorld (db w) s).

Definition flash (msg : string) (k : View) : View :=
  λ w, let s := session w in
       k (mkWorld (db w)
            (mkSession (sess_employee_id s) (sess_employee_name s) (sess_is_admin s)
               (flashes s ++ [str_of msg]))).

Definition flash_str (msg : pystr) (k : View) : View :=
  λ w, let s := session w in
       k (mkWorld (db w)
            (mkSession (sess_employee_id s) (sess_employee_name s) (sess_is_admin s)
               (flashes s ++ [msg]))).

(** [render_template_string]: every page extends [base.html], which shows
    the flashed messages and so empties the queue. *)
Definition render (p : Page) : View :=
  λ w, let s := session w in
       (Render p (flashes s),
        mkWorld (db w)
          (mkSession (sess_employee_id s) (sess_employee_name s) (sess_is_admin s) [])).

(** [db.session.commit()] of the pending changes that lead to [s]. *)
Definition commit (s : Store) (k : View) : View :=
  λ w, k (mkWorld s (session w)).

Definition get_or_404 {A} (t : gmap Z A) (id : Z) (k : A → View) : View :=
  match t !! id with
  | Some row => k row
  | None => abort 404
  end.

Definition login_required (f : View) : View :=
  λ w, if truthy_int (sess_employee_id (session w)) then f w
       else flash "Please log in with your Employee ID." (redirect ep_login) w.

Definition admin_required (f : View) : View :=
  λ w, if sess_is_admin (session w) then f w
       else flash "Admin access required." (redirect ep_admin_login) w.

(** Queries shared by several views. *)
Definition active_equipment (s : Store) : list (Z * Equipment) :=
  order_by by_expiry_asc (filter_by (λ e, negb (is_retired e)) (equipment_table s)).

Definition equipment_of (emp_id : Z) (e : Equipment) : bool :=
  bool_decide (employee_id e = Some emp_id).

Definition near_of (near_cutoff : date) (rows : list (Z * Equipment)) : list (Z * Equipment) :=
  List.filter (λ r, expiry_date r.2 <=? near_cutoff) rows.

Definition employees_by_name (s : Store) : list (Z * Employee) :=
  order_by by_name_asc (map_to_list (employee_table s)).

Section Views.

Variable cfg : Config.

(** [int(s)] and [datetime.strptime(s, "%Y-%m-%d").date()] of the Python
    library, [None] where they raise [ValueError]. *)
Variable py_int : pystr → option Z.
Variable strptime_ymd : pystr → option date.

Definition root : View :=
  λ w, if sess_is_admin (session w) then redirect ep_admin_dashboard w
       else if truthy_int (sess_employee_id (session w)) then redirect ep_my_dashboard w
       else redirect ep_login w.

Definition login (req : Request) : View :=
  λ w,
    match method req with
    | POST =>
        let code := strip (form_get_or_empty "employee_code" req) in
        match first (filter_by (λ e, pystr_eqb (employee_code e) code)
                       (employee_table (db w))) with
        | Some (id, emp) =>
            set_session (mkSession (Some id) (Some (emp_name emp)) false [])
              (flash_str (str_of "Welcome, " ++ emp_name emp ++ str_of "!")
                 (redirect ep_my_dashboard)) w
        | None => flash "Invalid Employee ID." (render login_page) w
        end
    | GET => render login_page w
    end.

Definition logout : View :=
  set_session session_clear (flash "Logged out." (redirect ep_login)).

Definition admin_login (req : Request) : View :=
  match method req with
  | POST =>
      let pin := strip (form_get_or_empty "pin" req) in
      if pystr_eqb pin (ADMIN_PIN cfg)
      then set_session (mkSession None None true [])
             (flash "Admin login successful." (redirect ep_admin_dashboard))
      else flash "Invalid PIN." (render admin_login_page)
  | GET => render admin_login_page
  end.

Definition my_dashboard (clock : Clock) : View :=
  login_required (λ w,
    match sess_employee_id (session w) with
    | None => abort 500 w
    | Some sid =>
        get_or_404 (employee_table (db w)) sid (λ emp,
          let mine :=
            order_by by_expiry_asc
              (filter_by (λ e, equipment_of sid e && negb (is_retired e))
                 (equipment_table (db w))) in
          match date_add_days (today clock) (NEAR_EXPIRY_DAYS cfg) with
          | None => abort 500
          | Some near_cutoff =>
              render (my_dashboard_page mine (near_of near_cutoff mine) near_cutoff)
          end) w
    end).

Definition my_equipment : View :=
  login_required (redirect ep_my_dashboard).

Definition admin_dashboard (clock : Clock) : View :=
  admin_required (λ w,
    let equipment := active_equipment (db w) in
    match date_add_days (today clock) (NEAR_EXPIRY_DAYS cfg) with
    | None => abort 500 w
    | Some near_cutoff =>
        let total_emp := count (map_to_list (employee_table (db w))) in
        let total_eq := Z.of_nat (length equipment) in
        let open_issues :=
          count (filter_by (λ i, negb (is_resolved i)) (issue_table (db w))) in
        render (admin_dashboard_page equipment total_emp total_eq open_issues
                  (near_of near_cutoff equipment) near_cutoff) w
    end).

Definition list_employees : View :=
  admin_required (λ w,
    render (list_employees_page
              (List.map (λ r, (r, filter_by (λ e, equipment_of r.1 e && negb (is_retired e))
                                    (equipment_table (db w))))
                 (employees_by_name (db w)))) w).

Definition add_employee (req : Request) : View :=
  admin_required (λ w,
    match method req with
    | POST =>
        let name := strip (form_get_or_empty "name" req) in
        let code := strip (form_get_or_empty "employee_code" req) in
        if negb (truthy_str name) || negb (truthy_str code)
        then flash "Name and Employee ID are required." (redirect ep_add_employee) w
        else
          match first (filter_by (λ e, pystr_eqb (employee_code e) code)
                         (employee_table (db w))) with
          | Some _ =>
              flash "Employee ID already exists. Choose another."
                (redirect ep_add_employee) w
          | None =>
              commit (set_employee_table
                        (add_row (mkEmployee code name) (employee_table (db w))) (db w))
                (flash "Employee added." (redirect ep_list_employees)) w
          end
    | GET => render add_employee_page w
    end).

(** The loop over [emp.equipments]: every row that references [emp_id]
    is unassigned. *)
Definition unassign (emp_id : Z) (e : Equipment) : Equipment :=
  if equipment_of emp_id e
  then mkEquipment (eq_name e) (expiry_date e) None (is_retired e) (retired_on e)
  else e.

(** Deleting an [Employee] makes the ORM set the reference of each row of
    its [issues] relationship to NULL. *)
Definition forget_raiser (emp_id : Z) (i : Issue) : Issue :=
  if bool_decide (raised_by_employee_id i = Some emp_id)
  then mkIssue (equipment_id i) (description i) (raised_on i) None
         (is_resolved i) (resolved_on i)
  else i.

Definition remove_employee (emp_id : Z) : View :=
  admin_required (λ w,
    get_or_404 (employee_table (db w)) emp_id (λ emp,
      commit (mkStore (delete emp_id (employee_table (db w)))
                (unassign emp_id <$> equipment_table (db w))
                (forget_raiser emp_id <$> issue_table (db w)))
        (flash "Employee removed. Any assigned equipment was unassigned."
           (redirect ep_list_employees))) w).

Definition list_equipment : View :=
  admin_required (λ w, render (list_equipment_page (active_equipment (db w))) w).

Definition add_equipment (req : Request) : View :=
  admin_required (λ w,
    match method req with
    | POST =>
        let name := strip (form_get_or_empty "name" req) in
        match form_get "expiry_date" (form req) with
        | Some expiry_raw =>
            if negb (truthy_str name) || negb (truthy_str expiry_raw)
            then flash "All fields are required." (redirect ep_add_equipment) w
            else
              match strptime_ymd expiry_raw with
              | None => abort 500 w
              | Some expiry =>
                  commit (set_equipment_table
                            (add_row (mkEquipment name expiry None false None)
                               (equipment_table (db w))) (db w))
                    (flash "Equipment added." (redirect ep_list_equipment)) w
              end
        | None => flash "All fields are required." (redirect ep_add_equipment) w
        end
    | GET => render add_equipment_page w
    end).

Definition assign_equipment (req : Request) (eq_id : Z) : View :=
  admin_required (λ w,
    get_or_404 (equipment_table (db w)) eq_id (λ eq,
      if is_retired eq
      then flash "This equipment is retired and cannot be assigned."
             (redirect ep_list_equipment)
      else
        let employees := employees_by_name (db w) in
        match method req with
        | POST =>
            match form_get "employee_id" (form req) with
            | None => abort 400
            | Some raw =>
                match py_int raw with
                | None => abort 500
                | Some emp_id =>
                    if foreign_keys cfg
                       && negb (bool_decide (is_Some (employee_table (db w) !! emp_id)))
                    then abort 500
                    else
                      commit (set_equipment_table
                                (<[eq_id := mkEquipment (eq_name eq) (expiry_date eq)
                                              (Some emp_id) (is_retired eq) (retired_on eq)]>
                                   (equipment_table (db w))) (db w))
                        (flash "Assigned equipment." (redirect ep_list_equipment))
                end
            end
        | GET => render (assign_equipment_page (eq_id, eq) employees)
        end) w).

Definition list_issues : View :=
  admin_required (λ w,
    render (list_issues_page (order_by by_raised_desc (map_to_list (issue_table (db w))))) w).

Definition raise_issue (clock : Clock) (req : Request) (eq_id : Z) : View :=
  λ w,
    get_or_404 (equipment_table (db w)) eq_id (λ eq,
      if is_retired eq
      then flash "This equipment is retired. You cannot raise a new issue."
             (redirect ep_root)
      else
        match method req with
        | POST =>
            let desc := strip (form_get_or_empty "description" req) in
            if negb (truthy_str desc)
            then flash "Description is required." (redirect (ep_raise_issue eq_id))
            else
              let raiser :=
                if truthy_int (sess_employee_id (session w))
                then sess_employee_id (session w) else None in
              if foreign_keys cfg
                 && match raiser with
                    | Some r => negb (bool_decide (is_Some (employee_table (db w) !! r)))
                    | None => false
                    end
              then abort 500
              else
                commit (set_issue_table
                          (add_row (mkIssue eq_id desc (Some (utcnow clock 0)) raiser
                                      false None)
                             (issue_table (db w))) (db w))
                  (flash "Issue raised."
                     (if sess_is_admin (session w) then redirect ep_admin_dashboard
                      else if truthy_int (sess_employee_id (session w))
                           then redirect ep_my_dashboard
                           else redirect ep_root))
        | GET => render (raise_issue_page (eq_id, eq))
        end) w.

(** Toggle resolve / reopen. [eq] is [issue.equipment]: the row the
    issue references, [None] when there is none. *)
Definition resolve_issue (clock : Clock) (issue_id : Z) : View :=
  admin_required (λ w,
    get_or_404 (issue_table (db w)) issue_id (λ issue,
      let eq := equipment_table (db w) !! equipment_id issue in
      let resolved := negb (is_resolved issue) in
      let issue' :=
        mkIssue (equipment_id issue) (description issue) (raised_on issue)
          (raised_by_employee_id issue) resolved
          (if resolved then Some (utcnow clock 0) else None) in
      let equipment' :=
        match eq with
        | Some e =>
            if resolved
            then <[equipment_id issue :=
                     mkEquipment (eq_name e) (expiry_date e) None true
                       (Some (utcnow clock 1))]> (equipment_table (db w))
            else <[equipment_id issue :=
                     mkEquipment (eq_name e) (expiry_date e) (employee_id e) false
                       None]> (equipment_table (db w))
        | None => equipment_table (db w)
        end in
      commit (mkStore (employee_table (db w)) equipment'
                (<[issue_id := issue']> (issue_table (db w))))
        (flash (if resolved
                then "Issue marked as resolved. Equipment unassigned and retired."
                else "Issue re-opened. Equipment reactivated.")
           (redirect ep_list_issues))) w).

Definition delete_issue (issue_id : Z) : View :=
  admin_required (λ w,
    get_or_404 (issue_table (db w)) issue_id (λ issue,
      commit (set_issue_table (delete issue_id (issue_table (db w))) (db w))
        (flash "Issue deleted." (redirect ep_list_issues))) w).

(** The routing table: a view answers the methods its route lists (GET
    when it lists none); any other method gets 405. *)
Definition handle (clock : Clock) (req : Request) : View :=
  match endpoint req, method req with
  | ep_root, GET => root
  | ep_login, _ => login req
  | ep_logout, GET => logout
  | ep_admin_login, _ => admin_login req
  | ep_my_dashboard, GET => my_dashboard clock
  | ep_my_equipment, GET => my_equipment
  | ep_admin_dashboard, GET => admin_dashboard clock
  | ep_list_employees, GET => list_employees
  | ep_add_employee, _ => add_employee req
  | ep_remove_employee emp_id, GET => remove_employee emp_id
  | ep_list_equipment, GET => list_equipment
  | ep_add_equipment, _ => add_equipment req
  | ep_assign_equipment eq_id, _ => assign_equipment req eq_id
  | ep_list_issues, GET => list_issues
  | ep_raise_issue eq_id, _ => raise_issue clock req eq_id
  | ep_resolve_issue issue_id, GET => resolve_issue clock issue_id
  | ep_delete_issue issue_id, GET => delete_issue issue_id
  | _, POST => abort 405
  end.

End Views.

(** ** Start-up seeding *)

Definition add_all {A} (rows : list A) (t : gmap Z A) : gmap Z A :=
  foldl (λ t' row, add_row row t') t rows.

(** [seed_if_empty]; [None] when a demo expiry date overflows, in which
    case nothing is committed. *)
Definition seed_if_empty (clock : Clock) (s : Store) : option Store :=
  let employees :=
    if count (map_to_list (employee_table s)) =? 0
    then add_all [mkEmployee (str_of "E1001") (str_of "Chinmoy Das");
                  mkEmployee (str_of "E1002") (str_of "Harsha Das");
                  mkEmployee (str_of "E1003") (str_of "Koustav Patowary")]
           (employee_table s)
    else employee_table s in
  if count (map_to_list (equipment_table s)) =? 0
  then
    match date_add_days (today clock) 10, date_add_days (today clock) 3,
          date_add_days (today clock) 90 with
    | Some d1, Some d2, Some d3 =>
        Some (mkStore employees
                (add_all [mkEquipment (str_of "Safety Helmet") d1 None false None;
                          mkEquipment (str_of "Fire Extinguisher CO" ++ [8322%N]) d2
                            None false None;
                          mkEquipment (str_of "Safety Harness") d3 None false None]
                   (equipment_table s))
                (issue_table s))
    | _, _, _ => None
    end
  else Some (mkStore employees (equipment_table s) (issue_table s)).

(** ** The stores the application can produce *)

(** Starting from empty tables, the store after any sequence of seedings
    and requests; each request arrives with the session of its client. *)
Inductive Reachable (cfg : Config) (py_int : pystr → option Z)
    (strptime_ymd : pystr → option date) : Store → Prop :=
| reach_empty : Reachable cfg py_int strptime_ymd empty_store
| reach_seed s clock s' :
    Reachable cfg py_int strptime_ymd s →
    seed_if_empty clock s = Some s' →
    Reachable cfg py_int strptime_ymd s'
| reach_request s sess clock req :
    Reachable cfg py_int strptime_ymd s →
    Reachable cfg py_int strptime_ymd
      (db (handle cfg py_int strptime_ymd clock req (mkWorld s sess)).2).

(** ** Invariants of the equipment table *)

(** [is_retired] iff [retired_on] is set. *)
Definition retired_iff_stamped (e : Equipment) : Prop :=
  is_retired e = true ↔ retired_on e ≠ None.

(** A retired item is unassigned. *)
Definition retired_unassigned (e : Equipment) : Prop :=
  is_retired e = true → employee_id e = None.

Definition all_equipment (P : Equipment → Prop) (s : Store) : Prop :=
  map_Forall (λ _ e, P e) (equipment_table s).

(** The ways a view rewrites one equipment row. *)
Inductive row_change : Equipment → Equipment → Prop :=
| change_assign e emp_id :
    is_retired e = false →
    row_change e (mkEquipment (eq_name e) (expiry_date e) (Some emp_id)
                    (is_retired e) (retired_on e))
| change_unassign e :
    row_change e (mkEquipment (eq_name e) (expiry_date e) None
                    (is_retired e) (retired_on e))
| change_retire e t :
    row_change e (mkEquipment (eq_name e) (expiry_date e) None true (Some t))
| change_reactivate e :
    row_change e (mkEquipment (eq_name e) (expiry_date e) (employee_id e) false None).

(** A row of the table [t'] is a row of [t], a rewritten row of [t], or a
    newly created active, unassigned row. *)
Definition table_changes (t t' : gmap Z Equipment) : Prop :=
  ∀ id e', t' !! id = Some e' →
    t !! id = Some e'
    ∨ (∃ e, t !! id = Some e ∧ row_change e e')
    ∨ (∃ name expiry, e' = mkEquipment name expiry None false None).

Lemma table_changes_refl t : table_changes t t.
Proof. intros id e' H. by left. Qed.

Lemma table_changes_insert_new t id name expiry :
  table_changes t (<[id := mkEquipment name expiry None false None]> t).
Proof.
  intros id' e' H. destruct (decide (id = id')) as [->|Hne].
  - rewrite lookup_insert_eq in H. injection H as <-. right; right; eauto.
  - rewrite lookup_insert_ne in H by done. by left.
Qed.

Lemma table_changes_insert t id e e' :
  t !! id = Some e → row_change e e' → table_changes t (<[id := e']> t).
Proof.
  intros Hid Hch id' e'' H. destruct (decide (id = id')) as [->|Hne].
  - rewrite lookup_insert_eq in H. injection H as <-. right; left; eauto.
  - rewrite lookup_insert_ne in H by done. by left.
Qed.

Lemma table_changes_unassign t emp_id :
  table_changes t (unassign emp_id <$> t).
Proof.
  intros id e' H. rewrite lookup_fmap in H.
  destruct (t !! id) as [e|] eqn:Hid; simpl in H; [|done].
  injection H as <-. unfold unassign. destruct (equipment_of emp_id e).
  - right; left. exists e. split; [done|]. constructor.
  - by left.
Qed.

(** A property of rows that every rewriting keeps, and that new rows have,
    holds of the whole table after the change. *)
Lemma table_changes_Forall (P : Equipment → Prop) (t t' : gmap Z Equipment) :
  (∀ e e', row_change e e' → P e → P e') →
  (∀ name expiry, P (mkEquipment name expiry None false None)) →
  table_changes t t' →
  map_Forall (λ _ e, P e) t → map_Forall (λ _ e, P e) t'.
Proof.
  intros Hstep Hnew Hch Ht id e' H.
  destruct (Hch id e' H) as [Hold|[(e & Hold & Hrow)|(name & expiry & ->)]].
  - by apply (Ht id).
  - apply (Hstep e); [done|]. by apply (Ht id).
  - apply Hnew.
Qed.

Lemma row_change_retired_iff_stamped e e' :
  row_change e e' → retired_iff_stamped e → retired_iff_stamped e'.
Proof.
  unfold retired_iff_stamped. intros Hch He.
  destruct Hch; simpl; try done.
Qed.

Lemma row_change_retired_unassigned e e' :
  row_change e e' → retired_unassigned e → retired_unassigned e'.
Proof.
  unfold retired_unassigned. intros Hch He.
  destruct Hch; simpl; try done. congruence.
Qed.

(** ** What a request does to the equipment table *)

Section Frame.

Variable cfg : Config.
Variable py_int : pystr → option Z.
Variable strptime_ymd : pystr → option date.

Local Ltac unfold_view :=
  unfold admin_required, login_required, get_or_404, commit, flash, flash_str,
    set_session, render, redirect, abort,
    set_equipment_table, set_issue_table, set_employee_table, add_row in *.

Local Ltac split_view :=
  unfold_view; repeat (case_match; simpl in *; unfold_view);
  simpl in *; try apply table_changes_refl.

Lemma handle_table_changes clock req w :
  table_changes (equipment_table (db w))
    (equipment_table (db (handle cfg py_int strptime_ymd clock req w).2)).
Proof.
  destruct req as [m ep f]. unfold handle. simpl.
  destruct ep, m; simpl; try apply table_changes_refl.
  all: unfold root, login, logout, admin_login, my_dashboard, my_equipment,
         admin_dashboard, list_employees, add_employee, remove_employee,
         list_equipment, add_equipment, assign_equipment, list_issues,
         raise_issue, resolve_issue, delete_issue.
  all: split_view.
  - apply table_changes_unassign.
  - apply table_changes_insert_new.
  - eapply table_changes_insert; [done|].
    match goal with
    | Hact : is_retired ?e = false |- row_change ?e (mkEquipment _ _ (Some ?z) _ _) =>
        pose proof (change_assign e z Hact) as Hc; by rewrite Hact in Hc
    end.
  - eapply table_changes_insert; [done|]. constructor.
  - eapply table_changes_insert; [done|]. constructor.
Qed.

End Frame.

Section Invariants.

Variable cfg : Config.
Variable py_int : pystr → option Z.
Variable strptime_ymd : pystr → option date.

Variable P : Equipment → Prop.
Hypothesis P_change : ∀ e e', row_change e e' → P e → P e'.
Hypothesis P_new : ∀ name expiry, P (mkEquipment name expiry None false None).

Lemma handle_all_equipment clock req w :
  all_equipment P (db w) →
  all_equipment P (db (handle cfg py_int strptime_ymd clock req w).2).
Proof.
  unfold all_equipment. intros Hw.
  eapply table_changes_Forall; [apply P_change|apply P_new| |apply Hw].
  apply handle_table_changes.
Qed.

Lemma add_row_all_equipment name expiry (t : gmap Z Equipment) :
  map_Forall (λ _ e, P e) t →
  map_Forall (λ _ e, P e) (add_row (mkEquipment name expiry None false None) t).
Proof. intros Ht. apply map_Forall_insert_2; [apply P_new|done]. Qed.

Lemma seed_all_equipment clock s s' :
  all_equipment P s → seed_if_empty clock s = Some s' → all_equipment P s'.
Proof.
  unfold all_equipment, seed_if_empty. intros Hs Hseed.
  repeat case_match; simplify_eq; simpl; try done.
  all: by repeat apply add_row_all_equipment.
Qed.

Lemma Reachable_all_equipment s :
  Reachable cfg py_int strptime_ymd s → all_equipment P s.
Proof.
  induction 1 as [|s clock s' _ IH Hseed|s sess clock req _ IH].
  - unfold all_equipment. simpl. apply map_Forall_empty.
  - by eapply seed_all_equipment.
  - by apply (handle_all_equipment clock req (mkWorld s sess)).
Qed.

End Invariants.

(** ** The two invariants *)

Lemma new_row_retired_iff_stamped name expiry :
  retired_iff_stamped (mkEquipment name expiry None false None).
Proof. by unfold retired_iff_stamped. Qed.

Lemma new_row_retired_unassigned name expiry :
  retired_unassigned (mkEquipment name expiry None false None).
Proof. by unfold retired_unassigned. Qed.

(** C3. After every request (equipment creation, assignment, resolve
    toggle, issue deletion, employee deletion and all the others), and after
    seeding, every equipment row has [is_retired = true] exactly when its
    [retired_on] is not null: the property passes from the store before a
    request to the store after it, and so holds in every store the
    application can reach from empty tables. *)
Theorem retired_iff_stamped_invariant cfg py_int strptime_ymd :
  (∀ clock req w,
     all_equipment retired_iff_stamped (db w) →
     ∀ id e,
       equipment_table (db (handle cfg py_int strptime_ymd clock req w).2) !! id = Some e →
       (is_retired e = true ↔ retired_on e ≠ None))
  ∧ (∀ s, Reachable cfg py_int strptime_ymd s →
       ∀ id e, equipment_table s !! id = Some e →
         (is_retired e = true ↔ retired_on e ≠ None)).
Proof.
  split.
  - intros clock req w Hw id e He.
    by apply (handle_all_equipment cfg py_int strptime_ymd retired_iff_stamped
                row_change_retired_iff_stamped new_row_retired_iff_stamped
                clock req w Hw id e).
  - intros s Hs id e He.
    by apply (Reachable_all_equipment cfg py_int strptime_ymd retired_iff_stamped
                row_change_retired_iff_stamped new_row_retired_iff_stamped
                s Hs id e).
Qed.

(** C10. Every request keeps retired equipment unassigned: if every row
    with [is_retired = true] has [employee_id = None] before the request,
    the same holds after it, so it holds in every reachable store. Retiring
    clears the assignment in the same step, assignment refuses a retired
    row before it writes, and nothing else sets [employee_id]. *)
Theorem retired_unassigned_invariant cfg py_int strptime_ymd :
  (∀ clock req w,
     all_equipment retired_unassigned (db w) →
     ∀ id e,
       equipment_table (db (handle cfg py_int strptime_ymd clock req w).2) !! id = Some e →
       is_retired e = true → employee_id e = None)
  ∧ (∀ s, Reachable cfg py_int strptime_ymd s →
       ∀ id e, equipment_table s !! id = Some e →
         is_retired e = true → employee_id e = None).
Proof.
  split.
  - intros clock req w Hw id e He.
    by apply (handle_all_equipment cfg py_int strptime_ymd retired_unassigned
                row_change_retired_unassigned new_row_retired_unassigned
                clock req w Hw id e).
  - intros s Hs id e He.
    by apply (Reachable_all_equipment cfg py_int strptime_ymd retired_unassigned
                row_change_retired_unassigned new_row_retired_unassigned
                s Hs id e).
Qed.

(** ** The resolve toggle *)

Section Toggle.

Variable clock : Clock.
Variable w : World.
Variable issue_id : Z.
Variable issue : Issue.
Variable x : Equipment.

Hypothesis admin : sess_is_admin (session w) = true.
Hypothesis issue_row : issue_table (db w) !! issue_id = Some issue.
Hypothesis x_row : equipment_table (db w) !! equipment_id issue = Some x.

Lemma resolve_issue_open :
  is_resolved issue = false →
  resolve_issue clock issue_id w =
    (Redirect ep_list_issues,
     mkWorld
       (mkStore (employee_table (db w))
          (<[equipment_id issue :=
               mkEquipment (eq_name x) (expiry_date x) None true (Some (utcnow clock 1))]>
             (equipment_table (db w)))
          (<[issue_id :=
               mkIssue (equipment_id issue) (description issue) (raised_on issue)
                 (raised_by_employee_id issue) true (Some (utcnow clock 0))]>
             (issue_table (db w))))
       (mkSession (sess_employee_id (session w)) (sess_employee_name (session w))
          (sess_is_admin (session w))
          (flashes (session w)
           ++ [str_of "Issue marked as resolved. Equipment unassigned and retired."]))).
Proof.
  intros Hopen.
  unfold resolve_issue, admin_required, get_or_404, commit, flash, redirect.
  simpl. rewrite admin, issue_row, x_row, Hopen. simpl. by rewrite admin.
Qed.

Lemma resolve_issue_resolved :
  is_resolved issue = true →
  resolve_issue clock issue_id w =
    (Redirect ep_list_issues,
     mkWorld
       (mkStore (employee_table (db w))
          (<[equipment_id issue :=
               mkEquipment (eq_name x) (expiry_date x) (employee_id x) false None]>
             (equipment_table (db w)))
          (<[issue_id :=
               mkIssue (equipment_id issue) (description issue) (raised_on issue)
                 (raised_by_employee_id issue) false None]>
             (issue_table (db w))))
       (mkSession (sess_employee_id (session w)) (sess_employee_name (session w))
          (sess_is_admin (session w))
          (flashes (session w) ++ [str_of "Issue re-opened. Equipment reactivated."]))).
Proof.
  intros Hres.
  unfold resolve_issue, admin_required, get_or_404, commit, flash, redirect.
  simpl. rewrite admin, issue_row, x_row, Hres. simpl. by rewrite admin.
Qed.

End Toggle.

(** C1. Resolving an open issue (as admin) marks it resolved, stamps
    [resolved_on] with the clock, and leaves the equipment row it references
    retired, stamped with the clock and unassigned, whatever its assignment
    was before. *)
Theorem resolve_open_issue_retires_equipment clock w issue_id issue x :
  sess_is_admin (session w) = true →
  issue_table (db w) !! issue_id = Some issue →
  is_resolved issue = false →
  equipment_table (db w) !! equipment_id issue = Some x →
  let w' := (resolve_issue clock issue_id w).2 in
  issue_table (db w') !! issue_id =
    Some (mkIssue (equipment_id issue) (description issue) (raised_on issue)
            (raised_by_employee_id issue) true (Some (utcnow clock 0)))
  ∧ equipment_table (db w') !! equipment_id issue =
      Some (mkEquipment (eq_name x) (expiry_date x) None true (Some (utcnow clock 1))).
Proof.
  intros Hadmin Hissue Hopen Hx. simpl.
  rewrite (resolve_issue_open clock w issue_id issue x) by done. simpl.
  by rewrite !lookup_insert_eq.
Qed.

(** C2. Resolving a resolved issue again (as admin) reopens it: [resolved_on]
    is cleared and the equipment row it references is made active with
    [retired_on] cleared. Nothing about the rest of the store is asked: not
    the state of other issues on the same item, not its expiry date. *)
Theorem reopen_issue_reactivates_equipment clock w issue_id issue x :
  sess_is_admin (session w) = true →
  issue_table (db w) !! issue_id = Some issue →
  is_resolved issue = true →
  equipment_table (db w) !! equipment_id issue = Some x →
  let w' := (resolve_issue clock issue_id w).2 in
  issue_table (db w') !! issue_id =
    Some (mkIssue (equipment_id issue) (description issue) (raised_on issue)
            (raised_by_employee_id issue) false None)
  ∧ equipment_table (db w') !! equipment_id issue =
      Some (mkEquipment (eq_name x) (expiry_date x) (employee_id x) false None).
Proof.
  intros Hadmin Hissue Hres Hx. simpl.
  rewrite (resolve_issue_resolved clock w issue_id issue x) by done. simpl.
  by rewrite !lookup_insert_eq.
Qed.

(** C9. Resolving an open issue and toggling it again brings the issue
    back to open with [resolved_on] cleared and the equipment back to active
    with [retired_on] cleared, but an equipment row that was assigned ends
    unassigned: the store after the two toggles differs from the store
    before them. *)
Theorem resolve_then_reopen_loses_assignment clock1 clock2 w issue_id issue x emp_id :
  sess_is_admin (session w) = true →
  issue_table (db w) !! issue_id = Some issue →
  is_resolved issue = false →
  equipment_table (db w) !! equipment_id issue = Some x →
  employee_id x = Some emp_id →
  let w1 := (resolve_issue clock1 issue_id w).2 in
  let w2 := (resolve_issue clock2 issue_id w1).2 in
  issue_table (db w2) !! issue_id =
    Some (mkIssue (equipment_id issue) (description issue) (raised_on issue)
            (raised_by_employee_id issue) false None)
  ∧ equipment_table (db w2) !! equipment_id issue =
      Some (mkEquipment (eq_name x) (expiry_date x) None false None)
  ∧ db w2 ≠ db w.
Proof.
  intros Hadmin Hissue Hopen Hx Hemp. simpl.
  rewrite (resolve_issue_open clock1 w issue_id issue x) by done.
  match goal with
  | |- context [resolve_issue clock2 issue_id ?w1] =>
      rewrite (resolve_issue_resolved clock2 w1 issue_id
                 (mkIssue (equipment_id issue) (description issue) (raised_on issue)
                    (raised_by_employee_id issue) true (Some (utcnow clock1 0)))
                 (mkEquipment (eq_name x) (expiry_date x) None true
                    (Some (utcnow clock1 1))))
        by (simpl; by rewrite ?lookup_insert_eq)
  end.
  simpl. rewrite !lookup_insert_eq. split; [done|]. split; [done|].
  intros Heq. apply (f_equal (λ s, equipment_table s !! equipment_id issue)) in Heq.
  simpl in Heq. rewrite lookup_insert_eq, Hx in Heq.
  injection Heq as Heq. rewrite <- Heq in Hemp. done.
Qed.

(** ** Deleting an issue *)

(** C4. Deleting an issue (as admin) removes its row, whatever its state,
    and leaves the equipment table and the employee table as they were: the
    item the issue references keeps its [is_retired], [retired_on] and
    [employee_id], so a retirement caused by resolving the issue stays. *)
Theorem delete_issue_keeps_equipment w issue_id issue :
  sess_is_admin (session w) = true →
  issue_table (db w) !! issue_id = Some issue →
  let w' := (delete_issue issue_id w).2 in
  (delete_issue issue_id w).1 = Redirect ep_list_issues
  ∧ issue_table (db w') = delete issue_id (issue_table (db w))
  ∧ issue_table (db w') !! issue_id = None
  ∧ equipment_table (db w') = equipment_table (db w)
  ∧ employee_table (db w') = employee_table (db w).
Proof.
  intros Hadmin Hissue. simpl.
  unfold delete_issue, admin_required, get_or_404, commit, flash, redirect.
  simpl. rewrite Hadmin, Hissue. simpl.
  repeat split. apply lookup_delete_eq.
Qed.

(** ** Queries *)

Lemma elem_of_filter_by {A} (p : A → bool) (t : gmap Z A) id row :
  (id, row) ∈ filter_by p t ↔ t !! id = Some row ∧ p row = true.
Proof.
  unfold filter_by. rewrite list_elem_of_In, filter_In, <- list_elem_of_In.
  by rewrite elem_of_map_to_list.
Qed.

Lemma elem_of_order_by {A} (le : A → A → bool) (l : list A) r :
  r ∈ order_by le l ↔ r ∈ l.
Proof. by rewrite order_by_Permutation. Qed.

Lemma first_filter_by_is_Some {A} (p : A → bool) (t : gmap Z A) id row :
  t !! id = Some row → p row = true → is_Some (first (filter_by p t)).
Proof.
  intros Hrow Hp.
  assert ((id, row) ∈ filter_by p t) as Hin by by apply elem_of_filter_by.
  unfold first. destruct (filter_by p t) as [|r l]; [|by eexists].
  by apply elem_of_nil in Hin.
Qed.

Lemma elem_of_active_equipment s id e :
  (id, e) ∈ active_equipment s ↔ equipment_table s !! id = Some e ∧ is_retired e = false.
Proof.
  unfold active_equipment. rewrite elem_of_order_by, elem_of_filter_by.
  by rewrite negb_true_iff.
Qed.

Lemma elem_of_near_of near_cutoff rows r :
  r ∈ near_of near_cutoff rows ↔ r ∈ rows ∧ expiry_date r.2 <= near_cutoff.
Proof.
  unfold near_of. rewrite list_elem_of_In, filter_In, <- list_elem_of_In.
  by rewrite Z.leb_le.
Qed.

(** ** Employees *)

(** C7. Posting the add-employee form (as admin) with an employee code
    that, once stripped, is the code of an existing employee is answered by a
    redirect back to the form with a flashed notice, not by an error
    response; nothing is written, so the employee table keeps its rows and
    its row count. The notice is the duplicate-code one whenever the
    name and the code are both non-blank. *)
Theorem add_employee_duplicate_code req w id e :
  sess_is_admin (session w) = true →
  method req = POST →
  employee_table (db w) !! id = Some e →
  employee_code e = strip (form_get_or_empty "employee_code" req) →
  let r := add_employee req w in
  r.1 = Redirect ep_add_employee
  ∧ db r.2 = db w
  ∧ size (employee_table (db r.2)) = size (employee_table (db w))
  ∧ flashes (session r.2) =
      flashes (session w)
      ++ [str_of (if negb (truthy_str (strip (form_get_or_empty "name" req)))
                     || negb (truthy_str (strip (form_get_or_empty "employee_code" req)))
                  then "Name and Employee ID are required."
                  else "Employee ID already exists. Choose another.")].
Proof.
  intros Hadmin Hpost Hrow Hcode. simpl.
  unfold add_employee, admin_required. rewrite Hadmin, Hpost.
  destruct (negb (truthy_str (strip (form_get_or_empty "name" req)))
            || negb (truthy_str (strip (form_get_or_empty "employee_code" req)))).
  - by unfold flash, redirect.
  - destruct (first_filter_by_is_Some
                (λ e', pystr_eqb (employee_code e')
                         (strip (form_get_or_empty "employee_code" req)))
                (employee_table (db w)) id e Hrow) as [r Hr].
    + unfold pystr_eqb. by apply bool_decide_eq_true.
    + rewrite Hr. by unfold flash, redirect.
Qed.

Lemma remove_employee_eq w emp_id emp :
  sess_is_admin (session w) = true →
  employee_table (db w) !! emp_id = Some emp →
  remove_employee emp_id w =
    (Redirect ep_list_employees,
     mkWorld
       (mkStore (delete emp_id (employee_table (db w)))
          (unassign emp_id <$> equipment_table (db w))
          (forget_raiser emp_id <$> issue_table (db w)))
       (mkSession (sess_employee_id (session w)) (sess_employee_name (session w)) true
          (flashes (session w)
           ++ [str_of "Employee removed. Any assigned equipment was unassigned."]))).
Proof.
  intros Hadmin Hemp.
  unfold remove_employee, admin_required, get_or_404, commit, flash, redirect.
  simpl. rewrite Hadmin, Hemp. simpl. by rewrite Hadmin.
Qed.

(** C8. In a store the application can reach, deleting an employee (as
    admin) removes the employee row and leaves every equipment row that was
    assigned to that employee in the table, active and unassigned. The
    equipment table keeps exactly its ids, and no row changes its
    [is_retired] or [retired_on]. *)
Theorem remove_employee_unassigns_equipment cfg py_int strptime_ymd w emp_id emp eq_id x :
  Reachable cfg py_int strptime_ymd (db w) →
  sess_is_admin (session w) = true →
  employee_table (db w) !! emp_id = Some emp →
  equipment_table (db w) !! eq_id = Some x →
  employee_id x = Some emp_id →
  let w' := (remove_employee emp_id w).2 in
  employee_table (db w') !! emp_id = None
  ∧ equipment_table (db w') !! eq_id =
      Some (mkEquipment (eq_name x) (expiry_date x) None false None)
  ∧ dom (equipment_table (db w')) = dom (equipment_table (db w))
  ∧ (∀ id e', equipment_table (db w') !! id = Some e' →
       ∃ e, equipment_table (db w) !! id = Some e
            ∧ is_retired e' = is_retired e ∧ retired_on e' = retired_on e).
Proof.
  intros Hreach Hadmin Hemp Hx Hassigned. simpl.
  rewrite (remove_employee_eq w emp_id emp) by done. simpl.
  assert (is_retired x = false) as Hactive.
  { pose proof (Reachable_all_equipment cfg py_int strptime_ymd retired_unassigned
                  row_change_retired_unassigned new_row_retired_unassigned
                  (db w) Hreach eq_id x Hx) as Hinv.
    unfold retired_unassigned in Hinv. destruct (is_retired x); [|done].
    rewrite Hinv in Hassigned; done. }
  assert (retired_on x = None) as Hstamp.
  { pose proof (Reachable_all_equipment cfg py_int strptime_ymd retired_iff_stamped
                  row_change_retired_iff_stamped new_row_retired_iff_stamped
                  (db w) Hreach eq_id x Hx) as Hinv.
    unfold retired_iff_stamped in Hinv. destruct (retired_on x); [|done].
    rewrite Hactive in Hinv. by destruct Hinv as [_ Hinv]; discriminate Hinv. }
  split; [apply lookup_delete_eq|]. split.
  - rewrite lookup_fmap, Hx. simpl. unfold unassign, equipment_of.
    rewrite bool_decide_eq_true_2 by done. by rewrite Hactive, Hstamp.
  - split; [apply dom_fmap_L|].
    intros id e' He'. rewrite lookup_fmap in He'.
    destruct (equipment_table (db w) !! id) as [e|]; simpl in He'; [|done].
    injection He' as <-. exists e. split; [done|].
    unfold unassign. by destruct (equipment_of emp_id e).
Qed.

(** ** Near-expiry classification on the dashboards *)

(** The equipment rows of a rendered dashboard, the rows it counts as near
    expiry, and the cutoff its template compares with. *)
Definition dashboard_rows (r : Response)
  : option (list (Z * Equipment) * list (Z * Equipment) * date) :=
  match r with
  | Render (admin_dashboard_page equipment _ _ _ near_rows near_cutoff) _ =>
      Some (equipment, near_rows, near_cutoff)
  | Render (my_dashboard_page mine near_rows near_cutoff) _ =>
      Some (mine, near_rows, near_cutoff)
  | _ => None
  end.

Lemma date_add_days_Some d n :
  Z.abs n <= timedelta_max_days → valid_date (d + n) →
  date_add_days d n = Some (d + n).
Proof.
  unfold valid_date, date_add_days. intros Hn [Hlo Hhi].
  apply Z.leb_le in Hn, Hlo, Hhi. by rewrite Hn, Hlo, Hhi.
Qed.

Lemma row_status_near near_cutoff e :
  row_status near_cutoff e = near ↔ expiry_date e <= near_cutoff.
Proof.
  unfold row_status. destruct (Z.leb_spec (expiry_date e) near_cutoff); split; try done.
  lia.
Qed.

(** C6. With [T = date.today()] and [D = NEAR_EXPIRY_DAYS], [T + D] being a
    date, both dashboards render, they list exactly the active rows (of the
    logged-in employee, for the employee dashboard), and a listed row is
    among the near-expiry rows exactly when [expiry_date <= T + D]; the
    status the template shows depends on [T], [D] and [expiry_date] alone,
    is [near] at [expiry_date = T + D] and [ok] at [T + D + 1]. *)
Theorem near_expiry_classification cfg clock w :
  let T := today clock in
  let D := NEAR_EXPIRY_DAYS cfg in
  Z.abs D <= timedelta_max_days →
  valid_date (T + D) →
  (sess_is_admin (session w) = true →
   ∃ rows near_rows,
     dashboard_rows (admin_dashboard cfg clock w).1 = Some (rows, near_rows, T + D)
     ∧ (∀ id e, (id, e) ∈ rows ↔
                equipment_table (db w) !! id = Some e ∧ is_retired e = false)
     ∧ (∀ id e, (id, e) ∈ rows → ((id, e) ∈ near_rows ↔ expiry_date e <= T + D)))
  ∧ (∀ sid emp,
       sess_employee_id (session w) = Some sid → sid ≠ 0 →
       employee_table (db w) !! sid = Some emp →
       ∃ rows near_rows,
         dashboard_rows (my_dashboard cfg clock w).1 = Some (rows, near_rows, T + D)
         ∧ (∀ id e, (id, e) ∈ rows ↔
                    equipment_table (db w) !! id = Some e
                    ∧ employee_id e = Some sid ∧ is_retired e = false)
         ∧ (∀ id e, (id, e) ∈ rows → ((id, e) ∈ near_rows ↔ expiry_date e <= T + D)))
  ∧ (∀ e, row_status (T + D) e = near ↔ expiry_date e <= T + D)
  ∧ (∀ e, expiry_date e = T + D → row_status (T + D) e = near)
  ∧ (∀ e, expiry_date e = T + D + 1 → row_status (T + D) e = ok).
Proof.
  intros T D HD Hcut. pose proof (date_add_days_Some T D HD Hcut) as Hadd.
  split; [|split; [|split; [|split]]].
  - intros Hadmin. unfold admin_dashboard, admin_required. rewrite Hadmin.
    fold T D. rewrite Hadd. unfold render. simpl.
    eexists _, _. split; [done|]. split.
    + intros id e. apply elem_of_active_equipment.
    + intros id e Hin. rewrite elem_of_near_of. simpl. tauto.
  - intros sid emp Hsid Hnz Hemp. unfold my_dashboard, login_required.
    rewrite Hsid. simpl. apply Z.eqb_neq in Hnz. rewrite Hnz. simpl.
    unfold get_or_404. rewrite Hemp. fold T D. rewrite Hadd. unfold render. simpl.
    eexists _, _. split; [done|]. split.
    + intros id e. rewrite elem_of_order_by, elem_of_filter_by.
      unfold equipment_of. rewrite andb_true_iff, bool_decide_eq_true, negb_true_iff.
      tauto.
    + intros id e Hin. rewrite elem_of_near_of. simpl. tauto.
  - intros e. apply row_status_near.
  - intros e He. apply row_status_near. lia.
  - intros e He. unfold row_status.
    destruct (Z.leb_spec (expiry_date e) (T + D)); [lia|done].
Qed.

(** ** Assigning equipment *)

Section Assign.

Variable cfg : Config.
Variable py_int : pystr → option Z.
Variable req : Request.
Variable eq_id : Z.
Variable w : World.

Hypothesis admin : sess_is_admin (session w) = true.

(** An id that is not in the table is answered by 404; nothing changes. *)
Lemma assign_equipment_not_found :
  equipment_table (db w) !! eq_id = None →
  assign_equipment cfg py_int req eq_id w = (Abort 404, w).
Proof.
  intros Hnone. unfold assign_equipment, admin_required, get_or_404, abort.
  by rewrite admin, Hnone.
Qed.

(** A retired row is refused with a notice; the store is untouched, so the
    row keeps its assignment. *)
Lemma assign_equipment_retired eq :
  equipment_table (db w) !! eq_id = Some eq →
  is_retired eq = true →
  (assign_equipment cfg py_int req eq_id w).1 = Redirect ep_list_equipment
  ∧ db (assign_equipment cfg py_int req eq_id w).2 = db w
  ∧ flashes (session (assign_equipment cfg py_int req eq_id w).2) =
      flashes (session w)
      ++ [str_of "This equipment is retired and cannot be assigned."].
Proof.
  intros Heq Hret. unfold assign_equipment, admin_required, get_or_404.
  by rewrite admin, Heq, Hret.
Qed.

(** Whatever the request, the store changes only in the row [eq_id], and
    only by an assignment to the posted id. With foreign keys enforced
    the posted id is the id of an employee. *)
Lemma assign_equipment_changed :
  db (assign_equipment cfg py_int req eq_id w).2 ≠ db w →
  ∃ eq raw emp_id,
    equipment_table (db w) !! eq_id = Some eq
    ∧ is_retired eq = false
    ∧ method req = POST
    ∧ form_get "employee_id" (form req) = Some raw
    ∧ py_int raw = Some emp_id
    ∧ (foreign_keys cfg = true → is_Some (employee_table (db w) !! emp_id))
    ∧ db (assign_equipment cfg py_int req eq_id w).2 =
        set_equipment_table
          (<[eq_id := mkEquipment (eq_name eq) (expiry_date eq) (Some emp_id)
                        false (retired_on eq)]> (equipment_table (db w))) (db w).
Proof.
  unfold assign_equipment, admin_required, get_or_404. rewrite admin.
  destruct (equipment_table (db w) !! eq_id) as [eq|] eqn:Heq; [|done].
  destruct (is_retired eq) eqn:Hret; [done|].
  destruct (method req) eqn:Hm; [done|].
  destruct (form_get "employee_id" (form req)) as [raw|] eqn:Hraw; [|done].
  destruct (py_int raw) as [emp_id|] eqn:Hint; [|done].
  destruct (foreign_keys cfg
            && negb (bool_decide (is_Some (employee_table (db w) !! emp_id)))) eqn:Hfk;
    [done|].
  intros _. exists eq, raw, emp_id. repeat (split; [done|]). split; [|done].
  intros Hon. rewrite Hon in Hfk. simpl in Hfk.
  apply negb_false_iff, bool_decide_eq_true in Hfk. done.
Qed.

End Assign.

(** ** A worked run *)

(** Two parsers to run the views with. [decimal_int] is [int] on the
    strings of ASCII digits, [iso_date] is [strptime] with ["%Y-%m-%d"] on
    the zero-padded ASCII dates; both reject every other string. *)
Fixpoint digits_value (acc : Z) (s : pystr) : option Z :=
  match s with
  | [] => Some acc
  | c :: s' =>
      if ((48 <=? c) && (c <=? 57))%N
      then digits_value (10 * acc + Z.of_N (c - 48)) s'
      else None
  end.

Definition decimal_int (s : pystr) : option Z :=
  match s with [] => None | _ => digits_value 0 s end.

Definition is_leap (y : Z) : bool :=
  ((y mod 4 =? 0) && negb (y mod 100 =? 0)) || (y mod 400 =? 0).

Definition days_in_month (y m : Z) : Z :=
  if m =? 2 then (if is_leap y then 29 else 28)
  else if (m =? 4) || (m =? 6) || (m =? 9) || (m =? 11) then 30 else 31.

Definition days_before_year (y : Z) : Z :=
  (y - 1) * 365 + (y - 1) / 4 - (y - 1) / 100 + (y - 1) / 400.

(** Days of the year before the first day of month [S k]. *)
Fixpoint days_before_month (y : Z) (k : nat) : Z :=
  match k with
  | O => 0
  | S k' => days_before_month y k' + days_in_month y (Z.of_nat k)
  end.

Definition ymd_to_ordinal (y m d : Z) : option date :=
  if (1 <=? y) && (y <=? 9999) && (1 <=? m) && (m <=? 12)
     && (1 <=? d) && (d <=? days_in_month y m)
  then Some (days_before_year y + days_before_month y (Z.to_nat (m - 1)) + d)
  else None.

Definition iso_date (s : pystr) : option date :=
  match s with
  | [y1; y2; y3; y4; 45%N; m1; m2; 45%N; d1; d2] =>
      match digits_value 0 [y1; y2; y3; y4], digits_value 0 [m1; m2],
            digits_value 0 [d1; d2] with
      | Some y, Some m, Some d => ymd_to_ordinal y m d
      | _, _, _ => None
      end
  | _ => None
  end.

Example iso_date_epoch : iso_date (str_of "1970-01-01") = Some 719163.
Proof. reflexivity. Qed.

Example iso_date_max : iso_date (str_of "9999-12-31") = Some date_max.
Proof. reflexivity. Qed.

Example iso_date_feb30 : iso_date (str_of "2024-02-30") = None.
Proof. reflexivity. Qed.

Example strip_code : strip (str_of "  E1001 ") = str_of "E1001".
Proof. reflexivity. Qed.

(** The default settings: threshold 30, PIN 1234, SQLite. *)
Definition default_config : Config := mkConfig 30 (str_of "1234") false.

(** 4 November 2026; the [k]-th request reads its clock at [1000 k]. *)
Definition clock_at (k : Z) : Clock := mkClock (λ n, 1000 * k + Z.of_nat n) 739924.

Definition run (k : Z) (req : Request) (w : World) : World :=
  (handle default_config decimal_int iso_date (clock_at k) req w).2.

Definition admin_logs_in : Request :=
  mkRequest POST ep_admin_login [("pin"%string, str_of "1234")].

(** The scenario of the specification: employee E1001 and a helmet that
    expires in ten days are created, the helmet is assigned to E1001, who
    logs in and raises an issue; then the admin logs in again. *)
Definition world0 : World := mkWorld empty_store session_clear.
Definition world1 : World := run 1 admin_logs_in world0.
Definition world2 : World :=
  run 2 (mkRequest POST ep_add_employee
           [("employee_code"%string, str_of "E1001"); ("name"%string, str_of "Asha")])
    world1.
Definition world3 : World :=
  run 3 (mkRequest POST ep_add_equipment
           [("name"%string, str_of "Helmet"); ("expiry_date"%string, str_of "2026-11-14")])
    world2.
Definition world4 : World :=
  run 4 (mkRequest POST (ep_assign_equipment 1) [("employee_id"%string, str_of "1")])
    world3.
Definition world5 : World :=
  run 5 (mkRequest POST ep_login [("employee_code"%string, str_of "E1001")]) world4.
Definition world6 : World :=
  run 6 (mkRequest POST (ep_raise_issue 1) [("description"%string, str_of "strap broken")])
    world5.
Definition world7 : World := run 7 admin_logs_in world6.

Definition helmet : Equipment :=
  mkEquipment (str_of "Helmet") 739934 (Some 1) false None.

Definition strap_broken : Issue :=
  mkIssue 1 (str_of "strap broken") (Some 6000) (Some 1) false None.

Example world7_admin : sess_is_admin (session world7) = true.
Proof. reflexivity. Qed.

Example world7_employee :
  employee_table (db world7) !! 1 = Some (mkEmployee (str_of "E1001") (str_of "Asha")).
Proof. reflexivity. Qed.

Example world7_helmet : equipment_table (db world7) !! 1 = Some helmet.
Proof. reflexivity. Qed.

Example world7_issue : issue_table (db world7) !! 1 = Some strap_broken.
Proof. reflexivity. Qed.

Lemma Reachable_handle cfg py_int strptime_ymd clock req w :
  Reachable cfg py_int strptime_ymd (db w) →
  Reachable cfg py_int strptime_ymd (db (handle cfg py_int strptime_ymd clock req w).2).
Proof. destruct w as [s sess]. apply reach_request. Qed.

Lemma world7_reachable : Reachable default_config decimal_int iso_date (db world7).
Proof. repeat apply Reachable_handle. apply reach_empty. Qed.

(** A posted employee id is written as it is once the row is found active;
    only a database that enforces foreign keys looks the employee up. *)
Lemma assign_equipment_post cfg py_int req eq_id w eq raw emp_id :
  sess_is_admin (session w) = true →
  equipment_table (db w) !! eq_id = Some eq →
  is_retired eq = false →
  method req = POST →
  form_get "employee_id" (form req) = Some raw →
  py_int raw = Some emp_id →
  foreign_keys cfg = false ∨ is_Some (employee_table (db w) !! emp_id) →
  assign_equipment cfg py_int req eq_id w =
    (Redirect ep_list_equipment,
     mkWorld
       (set_equipment_table
          (<[eq_id := mkEquipment (eq_name eq) (expiry_date eq) (Some emp_id) false
                        (retired_on eq)]> (equipment_table (db w))) (db w))
       (mkSession (sess_employee_id (session w)) (sess_employee_name (session w)) true
          (flashes (session w) ++ [str_of "Assigned equipment."]))).
Proof.
  intros Hadmin Heq Hret Hm Hraw Hint Hfk.
  unfold assign_equipment, admin_required, get_or_404.
  rewrite Hadmin, Heq, Hret, Hm, Hraw, Hint.
  assert (foreign_keys cfg
          && negb (bool_decide (is_Some (employee_table (db w) !! emp_id))) = false)
    as ->.
  { destruct Hfk as [->|Hemp]; [done|].
    rewrite (bool_decide_eq_true_2 _ Hemp). apply andb_false_r. }
  unfold commit, flash, redirect. simpl. by rewrite Hadmin.
Qed.

(** With foreign keys enforced, the same request for an unknown employee
    dies in the commit: an error response, not a notice. *)
Lemma assign_equipment_foreign_key_error cfg py_int req eq_id w eq raw emp_id :
  sess_is_admin (session w) = true →
  equipment_table (db w) !! eq_id = Some eq →
  is_retired eq = false →
  method req = POST →
  form_get "employee_id" (form req) = Some raw →
  py_int raw = Some emp_id →
  foreign_keys cfg = true →
  employee_table (db w) !! emp_id = None →
  assign_equipment cfg py_int req eq_id w = (Abort 500, w).
Proof.
  intros Hadmin Heq Hret Hm Hraw Hint Hfk Hnone.
  unfold assign_equipment, admin_required, get_or_404.
  rewrite Hadmin, Heq, Hret, Hm, Hraw, Hint, Hfk, Hnone.
  rewrite bool_decide_eq_false_2 by (by intros [? ?]). done.
Qed.

(** C5, where the view departs from it. On the default (SQLite) settings an
    admin posts [employee_id=999] for the active helmet of [world3], where
    the only employee has id 1: the view answers with the redirect of a
    successful assignment and the helmet now references employee 999, which
    is not in the employee table. The view checks that the equipment exists
    and is not retired, but not that the employee exists. *)
Theorem assign_equipment_unknown_employee py_int :
  py_int (str_of "999") = Some 999 →
  let req := mkRequest POST (ep_assign_equipment 1)
               [("employee_id"%string, str_of "999")] in
  let r := assign_equipment default_config py_int req 1 world3 in
  r.1 = Redirect ep_list_equipment
  ∧ equipment_table (db r.2) !! 1 =
      Some (mkEquipment (str_of "Helmet") 739934 (Some 999) false None)
  ∧ employee_table (db r.2) !! 999 = None
  ∧ flashes (session r.2) = [str_of "Admin login successful."; str_of "Employee added.";
                             str_of "Equipment added."; str_of "Assigned equipment."].
Proof.
  intros Hint. simpl.
  rewrite (assign_equipment_post default_config py_int _ 1 world3
             (mkEquipment (str_of "Helmet") 739934 None false None)
             (str_of "999") 999) by (done || by left).
  simpl. rewrite lookup_insert_eq. done.
Qed.

Lemma assign_equipment_unknown_employee_witness :
  decimal_int (str_of "999") = Some 999
  ∧ employee_table
      (db (assign_equipment default_config decimal_int
             (mkRequest POST (ep_assign_equipment 1)
                [("employee_id"%string, str_of "999")]) 1 world3).2) !! 999 = None.
Proof.
  split; [reflexivity|].
  apply (assign_equipment_unknown_employee decimal_int). reflexivity.
Defined.

(** The admin resolves the issue: the helmet is retired and unassigned. *)
Definition resolve_1 : Request := mkRequest GET (ep_resolve_issue 1) [].
Definition world8 : World := run 8 resolve_1 world7.

Definition retired_helmet : Equipment :=
  mkEquipment (str_of "Helmet") 739934 None true (Some 8001).

Definition strap_resolved : Issue :=
  mkIssue 1 (str_of "strap broken") (Some 6000) (Some 1) true (Some 8000).

Example world8_helmet : equipment_table (db world8) !! 1 = Some retired_helmet.
Proof. reflexivity. Qed.

Example world8_issue : issue_table (db world8) !! 1 = Some strap_resolved.
Proof. reflexivity. Qed.

Lemma world8_reachable : Reachable default_config decimal_int iso_date (db world8).
Proof. apply Reachable_handle, world7_reachable. Qed.

(** A store with an expired, retired harness and two issues against it,
    one resolved and one open. *)
Definition expired_harness : Equipment :=
  mkEquipment (str_of "Harness") 739000 None true (Some 500).

Definition backlog : World :=
  mkWorld
    (mkStore ∅ {[5 := expired_harness]}
       (<[1 := mkIssue 5 (str_of "frayed") (Some 100) None true (Some 500)]>
          {[2 := mkIssue 5 (str_of "buckle stuck") (Some 200) None false None]}))
    (mkSession None None true []).

Lemma resolve_open_issue_retires_equipment_witness :
  issue_table (db (resolve_issue (clock_at 8) 1 world7).2) !! 1 = Some strap_resolved
  ∧ equipment_table (db (resolve_issue (clock_at 8) 1 world7).2) !! 1 = Some retired_helmet.
Proof.
  exact (resolve_open_issue_retires_equipment (clock_at 8) world7 1 strap_broken helmet
           eq_refl eq_refl eq_refl eq_refl).
Defined.

Lemma reopen_issue_reactivates_equipment_witness :
  today (clock_at 9) > expiry_date expired_harness
  ∧ issue_table (db backlog) !! 2 =
      Some (mkIssue 5 (str_of "buckle stuck") (Some 200) None false None)
  ∧ equipment_table (db (resolve_issue (clock_at 9) 1 backlog).2) !! 5 =
      Some (mkEquipment (str_of "Harness") 739000 None false None).
Proof.
  split; [reflexivity|]. split; [reflexivity|].
  exact (proj2 (reopen_issue_reactivates_equipment (clock_at 9) backlog 1
                  (mkIssue 5 (str_of "frayed") (Some 100) None true (Some 500))
                  expired_harness eq_refl eq_refl eq_refl eq_refl)).
Defined.

Lemma resolve_then_reopen_loses_assignment_witness :
  equipment_table
    (db (resolve_issue (clock_at 9) 1 (resolve_issue (clock_at 8) 1 world7).2).2) !! 1 =
    Some (mkEquipment (str_of "Helmet") 739934 None false None)
  ∧ db (resolve_issue (clock_at 9) 1 (resolve_issue (clock_at 8) 1 world7).2).2
    ≠ db world7.
Proof.
  exact (proj2 (resolve_then_reopen_loses_assignment (clock_at 8) (clock_at 9) world7 1
                  strap_broken helmet 1 eq_refl eq_refl eq_refl eq_refl eq_refl)).
Defined.

Lemma delete_issue_keeps_equipment_witness :
  issue_table (db (delete_issue 1 world8).2) !! 1 = None
  ∧ equipment_table (db (delete_issue 1 world8).2) !! 1 = Some retired_helmet.
Proof.
  destruct (delete_issue_keeps_equipment world8 1 strap_resolved eq_refl eq_refl)
    as (_ & _ & Hgone & Hsame & _).
  split; [exact Hgone|]. rewrite Hsame. reflexivity.
Defined.

Lemma retired_iff_stamped_invariant_witness :
  equipment_table (db (run 8 resolve_1 world7)) !! 1 = Some retired_helmet
  ∧ (is_retired retired_helmet = true ↔ retired_on retired_helmet ≠ None).
Proof.
  split; [reflexivity|].
  apply (proj1 (retired_iff_stamped_invariant default_config decimal_int iso_date)
           (clock_at 8) resolve_1 world7) with (id := 1); [|reflexivity].
  exact (Reachable_all_equipment default_config decimal_int iso_date retired_iff_stamped
           row_change_retired_iff_stamped new_row_retired_iff_stamped
           (db world7) world7_reachable).
Defined.

Definition assign_1_to_1 : Request :=
  mkRequest POST (ep_assign_equipment 1) [("employee_id"%string, str_of "1")].

Lemma retired_unassigned_invariant_witness :
  equipment_table (db (run 9 assign_1_to_1 world8)) !! 1 = Some retired_helmet
  ∧ employee_id retired_helmet = None.
Proof.
  split; [reflexivity|].
  apply (proj1 (retired_unassigned_invariant default_config decimal_int iso_date)
           (clock_at 9) assign_1_to_1 world8) with (id := 1); [|reflexivity|reflexivity].
  exact (Reachable_all_equipment default_config decimal_int iso_date retired_unassigned
           row_change_retired_unassigned new_row_retired_unassigned
           (db world8) world8_reachable).
Defined.

Lemma add_employee_duplicate_code_witness :
  let req := mkRequest POST ep_add_employee
               [("employee_code"%string, str_of " E1001 "); ("name"%string, str_of "Bina")] in
  (add_employee req world7).1 = Redirect ep_add_employee
  ∧ db (add_employee req world7).2 = db world7
  ∧ flashes (session (add_employee req world7).2) =
      [str_of "Admin login successful.";
       str_of "Employee ID already exists. Choose another."].
Proof.
  intros req.
  destruct (add_employee_duplicate_code req world7 1
              (mkEmployee (str_of "E1001") (str_of "Asha")) eq_refl eq_refl eq_refl eq_refl)
    as (Hresp & Hdb & _ & Hflash).
  split; [exact Hresp|]. split; [exact Hdb|]. rewrite Hflash. reflexivity.
Defined.

Lemma remove_employee_unassigns_equipment_witness :
  employee_table (db (remove_employee 1 world7).2) !! 1 = None
  ∧ equipment_table (db (remove_employee 1 world7).2) !! 1 =
      Some (mkEquipment (str_of "Helmet") 739934 None false None).
Proof.
  destruct (remove_employee_unassigns_equipment default_config decimal_int iso_date
              world7 1 (mkEmployee (str_of "E1001") (str_of "Asha")) 1 helmet
              world7_reachable eq_refl eq_refl eq_refl eq_refl)
    as (Hgone & Hrow & _).
  split; [exact Hgone|exact Hrow].
Defined.

Lemma near_expiry_classification_witness :
  ∃ rows near_rows,
    dashboard_rows (admin_dashboard default_config (clock_at 8) world7).1 =
      Some (rows, near_rows, 739954)
    ∧ (1, helmet) ∈ near_rows.
Proof.
  assert (Z.abs (NEAR_EXPIRY_DAYS default_config) <= timedelta_max_days) as HD
    by (vm_compute; discriminate).
  assert (valid_date (today (clock_at 8) + NEAR_EXPIRY_DAYS default_config)) as Hcut
    by (split; vm_compute; discriminate).
  destruct (near_expiry_classification default_config (clock_at 8) world7 HD Hcut)
    as (Hadmin & _).
  destruct (Hadmin eq_refl) as (rows & near_rows & Hpage & Hrows & Hnear).
  exists rows, near_rows. split; [exact Hpage|].
  apply Hnear; [|vm_compute; discriminate].
  apply Hrows. split; reflexivity.
Defined.


(** * Further properties of the views *)

(** ** Row ids *)

Lemma foldr_max_ge (k : Z) (ks : list Z) x :
  x ∈ k :: ks → x <= foldr Z.max k ks.
Proof.
  induction ks as [|y ks IH]; simpl.
  - intros Hx. apply list_elem_of_singleton in Hx. lia.
  - intros Hx. apply elem_of_cons in Hx as [->|Hx].
    + assert (k <= foldr Z.max k ks) by (apply IH; left). lia.
    + apply elem_of_cons in Hx as [->|Hx]; [lia|].
      assert (x <= foldr Z.max k ks) by (apply IH; by right). lia.
Qed.

Lemma next_id_above {A} (t : gmap Z A) id row :
  t !! id = Some row → id < next_id t.
Proof.
  intros Hrow. apply elem_of_map_to_list in Hrow.
  assert (id ∈ (map_to_list t).*1) as Hin.
  { apply list_elem_of_fmap. by exists (id, row). }
  unfold next_id. destruct ((map_to_list t).*1) as [|k ks].
  - by apply elem_of_nil in Hin.
  - apply foldr_max_ge in Hin. lia.
Qed.

Lemma next_id_fresh {A} (t : gmap Z A) : t !! next_id t = None.
Proof.
  destruct (t !! next_id t) as [row|] eqn:Hrow; [|done].
  apply next_id_above in Hrow. lia.
Qed.

(** An insert never overwrites: the id given to a new row is above every
    id in use, the new row is found under that id, every old row is still
    found under its own id, and the table has one row more. *)
Lemma add_row_keeps_rows {A} (row : A) (t : gmap Z A) :
  add_row row t !! next_id t = Some row
  ∧ (∀ id old, t !! id = Some old → id < next_id t ∧ add_row row t !! id = Some old)
  ∧ size (add_row row t) = S (size t).
Proof.
  unfold add_row. split; [apply lookup_insert_eq|]. split.
  - intros id old Hold. pose proof (next_id_above t id old Hold) as Hlt.
    split; [done|]. rewrite lookup_insert_ne by lia. done.
  - apply map_size_insert_None, next_id_fresh.
Qed.

(** ** The writes of the views *)

(** [resolve_issue]'s write: the toggled issue row and the rewritten
    equipment row, when the issue references one. *)
Definition toggled (clock : Clock) (issue_id : Z) (issue : Issue) (s : Store) : Store :=
  let resolved := negb (is_resolved issue) in
  mkStore (employee_table s)
    (match equipment_table s !! equipment_id issue with
     | Some e =>
         if resolved
         then <[equipment_id issue :=
                  mkEquipment (eq_name e) (expiry_date e) None true
                    (Some (utcnow clock 1))]> (equipment_table s)
         else <[equipment_id issue :=
                  mkEquipment (eq_name e) (expiry_date e) (employee_id e) false
                    None]> (equipment_table s)
     | None => equipment_table s
     end)
    (<[issue_id :=
         mkIssue (equipment_id issue) (description issue) (raised_on issue)
           (raised_by_employee_id issue) resolved
           (if resolved then Some (utcnow clock 0) else None)]> (issue_table s)).

(** Every way a request changes the store, with the checks that the view
    has passed before it writes. *)
Inductive store_step (cfg : Config) : Store → Store → Prop :=
| step_add_employee s name code :
    truthy_str name = true → truthy_str code = true →
    first (filter_by (λ e, pystr_eqb (employee_code e) code) (employee_table s)) = None →
    store_step cfg s
      (set_employee_table (add_row (mkEmployee code name) (employee_table s)) s)
| step_remove_employee s emp_id emp :
    employee_table s !! emp_id = Some emp →
    store_step cfg s
      (mkStore (delete emp_id (employee_table s))
         (unassign emp_id <$> equipment_table s)
         (forget_raiser emp_id <$> issue_table s))
| step_add_equipment s name expiry :
    truthy_str name = true →
    store_step cfg s
      (set_equipment_table
         (add_row (mkEquipment name expiry None false None) (equipment_table s)) s)
| step_assign_equipment s eq_id eq emp_id :
    equipment_table s !! eq_id = Some eq →
    is_retired eq = false →
    (foreign_keys cfg = true → is_Some (employee_table s !! emp_id)) →
    store_step cfg s
      (set_equipment_table
         (<[eq_id := mkEquipment (eq_name eq) (expiry_date eq) (Some emp_id)
                       (is_retired eq) (retired_on eq)]> (equipment_table s)) s)
| step_raise_issue s eq_id eq desc t raiser :
    equipment_table s !! eq_id = Some eq →
    is_retired eq = false →
    truthy_str desc = true →
    (∀ r, foreign_keys cfg = true → raiser = Some r → is_Some (employee_table s !! r)) →
    store_step cfg s
      (set_issue_table
         (add_row (mkIssue eq_id desc (Some t) raiser false None) (issue_table s)) s)
| step_resolve_issue s clock issue_id issue :
    issue_table s !! issue_id = Some issue →
    store_step cfg s (toggled clock issue_id issue s)
| step_delete_issue s issue_id issue :
    issue_table s !! issue_id = Some issue →
    store_step cfg s (set_issue_table (delete issue_id (issue_table s)) s).

Section Steps.

Variable cfg : Config.
Variable py_int : pystr → option Z.
Variable strptime_ymd : pystr → option date.

Local Ltac unfold_all :=
  unfold admin_required, login_required, get_or_404, commit, flash, flash_str,
    set_session, render, redirect, abort in *.

Local Ltac split_all :=
  unfold_all; repeat (case_match; simpl in *; unfold_all);
  simpl in *; try (left; reflexivity).

Local Ltac step_case :=
  match goal with
  | H : None = Some _ |- _ => discriminate H
  | Hb : _ || _ = false
    |- store_step _ _ (set_employee_table _ _) =>
      apply orb_false_iff in Hb as [Hn Hc]; apply negb_false_iff in Hn, Hc;
      by apply step_add_employee
  | |- store_step _ _ (mkStore (delete _ _) _ _) => by eapply step_remove_employee
  | Hb : _ || _ = false
    |- store_step _ _ (set_equipment_table (add_row _ _) _) =>
      apply orb_false_iff in Hb as [Hn _]; apply negb_false_iff in Hn;
      by apply step_add_equipment
  | Hact : is_retired ?e = false, Hfk : _ && _ = false
    |- store_step ?c ?s (set_equipment_table (<[?i := mkEquipment _ _ (Some ?z) _ _]> _) _) =>
      pose proof (step_assign_equipment c s i e z) as Hstep;
      rewrite Hact in Hstep; apply Hstep; [done|done|];
      intros Hon; rewrite Hon in Hfk; simpl in Hfk;
      by apply negb_false_iff, bool_decide_eq_true in Hfk
  | Hd : negb (truthy_str _) = false, Hfk : _ && _ = false
    |- store_step _ _ (set_issue_table (add_row _ _) _) =>
      apply negb_false_iff in Hd;
      eapply step_raise_issue; [done|done|done|];
      intros r Hon Hr; rewrite Hon in Hfk; simpl in Hfk;
      try discriminate Hr; injection Hr as <-;
      by apply negb_false_iff, bool_decide_eq_true in Hfk
  | |- store_step _ _ (set_issue_table (delete _ _) _) => by eapply step_delete_issue
  end.

(** A request leaves the store as it is or makes one of the writes above. *)
Lemma handle_store_step clock req w :
  db (handle cfg py_int strptime_ymd clock req w).2 = db w
  ∨ store_step cfg (db w) (db (handle cfg py_int strptime_ymd clock req w).2).
Proof.
  destruct req as [m ep f]. unfold handle. simpl.
  destruct ep, m; simpl; try (left; reflexivity).
  all: try match goal with
       | |- context [resolve_issue ?c ?i] =>
           unfold resolve_issue, admin_required, get_or_404;
           destruct (sess_is_admin (session w)); [|left; reflexivity];
           destruct (issue_table (db w) !! i) as [issue|] eqn:Hi; [|left; reflexivity];
           right; exact (step_resolve_issue cfg (db w) c i issue Hi)
       end.
  all: unfold root, login, logout, admin_login, my_dashboard, my_equipment,
         admin_dashboard, list_employees, add_employee, remove_employee,
         list_equipment, add_equipment, assign_equipment, list_issues,
         raise_issue, delete_issue.
  all: split_all.
  all: right; step_case.
Qed.

End Steps.

Global Arguments add_all : simpl never.

Lemma add_all_keeps {A} (rows : list A) (t : gmap Z A) id old :
  t !! id = Some old → add_all rows t !! id = Some old.
Proof.
  unfold add_all. revert t. induction rows as [|row rows IH]; intros t Hold; simpl.
  - done.
  - apply IH. by apply add_row_keeps_rows.
Qed.

Lemma add_all_rows {A} (rows : list A) (t : gmap Z A) id new :
  add_all rows t !! id = Some new → t !! id = Some new ∨ new ∈ rows.
Proof.
  unfold add_all. revert t. induction rows as [|row rows IH]; intros t Hnew; simpl in *.
  - by left.
  - apply IH in Hnew as [Hnew|Hin]; [|right; by right].
    unfold add_row in Hnew. destruct (decide (next_id t = id)) as [<-|Hne].
    + rewrite lookup_insert_eq in Hnew. injection Hnew as <-. right; left.
    + rewrite lookup_insert_ne in Hnew by done. by left.
Qed.

(** What seeding does: the issue table is kept, old employee and equipment
    rows are kept, and rows are only added to an empty table. *)
Lemma seed_if_empty_spec clock s s' :
  seed_if_empty clock s = Some s' →
  issue_table s' = issue_table s
  ∧ (∀ id e, equipment_table s !! id = Some e → equipment_table s' !! id = Some e)
  ∧ (∀ id e, equipment_table s' !! id = Some e →
       equipment_table s !! id = Some e
       ∨ ∃ name expiry, e = mkEquipment name expiry None false None)
  ∧ (∀ id e, employee_table s !! id = Some e → employee_table s' !! id = Some e)
  ∧ (employee_table s' = employee_table s ∨ employee_table s = ∅)
  ∧ (equipment_table s' = equipment_table s ∨ equipment_table s = ∅).
Proof.
  unfold seed_if_empty, count. intros Hseed.
  assert (∀ A (t : gmap Z A), (Z.of_nat (length (map_to_list t)) =? 0) = true → t = ∅)
    as Hempty.
  { intros A t Hlen. apply Z.eqb_eq in Hlen. apply map_to_list_empty_iff.
    destruct (map_to_list t); [done|simpl in Hlen; lia]. }
  repeat case_match; simplify_eq; simpl.
  all: repeat match goal with
       | Hz : (_ =? 0) = true |- _ => apply Hempty in Hz
       end.
  all: split; [done|].
  all: split; [intros id e He; first [done|by apply add_all_keeps]|].
  all: split;
    [intros id e He;
     first [by left
           |apply add_all_rows in He as [He|Hin]; [by left|right];
            repeat (apply elem_of_cons in Hin as [->|Hin]; [by eexists _, _|]);
            by apply elem_of_nil in Hin]|].
  all: split; [intros id e He; first [done|by apply add_all_keeps]|].
  all: split; [(by left) || (by right)|(by left) || (by right)].
Qed.

Section ReachableInduction.

Variable cfg : Config.
Variable py_int : pystr → option Z.
Variable strptime_ymd : pystr → option date.
Variable I : Store → Prop.

Hypothesis I_empty : I empty_store.
Hypothesis I_seed : ∀ clock s s', I s → seed_if_empty clock s = Some s' → I s'.
Hypothesis I_step : ∀ s s', I s → store_step cfg s s' → I s'.

Lemma handle_store_invariant clock req w :
  I (db w) → I (db (handle cfg py_int strptime_ymd clock req w).2).
Proof.
  intros Hw.
  destruct (handle_store_step cfg py_int strptime_ymd clock req w) as [->|Hstep];
    [done|by eapply I_step].
Qed.

Lemma Reachable_store_invariant s :
  Reachable cfg py_int strptime_ymd s → I s.
Proof.
  induction 1 as [|s clock s' _ IH Hseed|s sess clock req _ IH].
  - apply I_empty.
  - by eapply I_seed.
  - by apply (handle_store_invariant clock req (mkWorld s sess)).
Qed.

End ReachableInduction.

(** ** Invariants of the issue table *)

Definition resolved_iff_stamped (s : Store) : Prop :=
  ∀ id i, issue_table s !! id = Some i →
    (is_resolved i = true ↔ resolved_on i ≠ None).

Definition issues_reference_equipment (s : Store) : Prop :=
  ∀ id i, issue_table s !! id = Some i →
    is_Some (equipment_table s !! equipment_id i).

Lemma step_resolved_iff_stamped cfg s s' :
  resolved_iff_stamped s → store_step cfg s s' → resolved_iff_stamped s'.
Proof.
  unfold resolved_iff_stamped. intros Hs Hstep.
  destruct Hstep; simpl; intros id i Hi; try by apply (Hs id).
  - rewrite lookup_fmap in Hi.
    destruct (issue_table s !! id) as [i0|] eqn:Hi0; simpl in Hi; [|done].
    injection Hi as <-. unfold forget_raiser. case_match; simpl; by apply (Hs id).
  - unfold add_row in Hi. destruct (decide (next_id (issue_table s) = id)) as [<-|Hne].
    + rewrite lookup_insert_eq in Hi. injection Hi as <-. done.
    + rewrite lookup_insert_ne in Hi by done. by apply (Hs id).
  - destruct (decide (issue_id = id)) as [<-|Hne].
    + rewrite lookup_insert_eq in Hi. injection Hi as <-. simpl.
      by destruct (is_resolved issue).
    + rewrite lookup_insert_ne in Hi by done. by apply (Hs id).
  - apply lookup_delete_Some in Hi as [_ Hi]. by apply (Hs id).
Qed.

(** X1. Every request keeps [is_resolved = true] equivalent to [resolved_on]
    being set, for every issue row, so this holds in every store that is
    reachable from empty tables. *)
Theorem resolved_iff_stamped_invariant cfg py_int strptime_ymd :
  (∀ clock req w,
     resolved_iff_stamped (db w) →
     resolved_iff_stamped (db (handle cfg py_int strptime_ymd clock req w).2))
  ∧ (∀ s, Reachable cfg py_int strptime_ymd s → resolved_iff_stamped s).
Proof.
  split.
  - intros clock req w.
    apply handle_store_invariant. intros s s'. apply step_resolved_iff_stamped.
  - apply Reachable_store_invariant.
    + intros id i Hi. simpl in Hi. by rewrite lookup_empty in Hi.
    + intros clock s s' Hs Hseed id i Hi.
      apply seed_if_empty_spec in Hseed as (Heq & _). rewrite Heq in Hi.
      by apply (Hs id).
    + intros s s'. apply step_resolved_iff_stamped.
Qed.

Lemma step_issues_reference_equipment cfg s s' :
  issues_reference_equipment s → store_step cfg s s' → issues_reference_equipment s'.
Proof.
  unfold issues_reference_equipment. intros Hs Hstep.
  destruct Hstep; simpl; intros id i Hi.
  - by apply (Hs id).
  - rewrite lookup_fmap in Hi.
    destruct (issue_table s !! id) as [i0|] eqn:Hi0; simpl in Hi; [|done].
    injection Hi as <-. rewrite lookup_fmap.
    assert (equipment_id (forget_raiser emp_id i0) = equipment_id i0) as ->
      by (unfold forget_raiser; by case_match).
    destruct (Hs id i0 Hi0) as [e ->]. by eexists.
  - destruct (Hs id i Hi) as [e He]. exists e. by apply add_row_keeps_rows.
  - destruct (Hs id i Hi) as [e He].
    destruct (decide (eq_id = equipment_id i)) as [<-|Hne].
    + rewrite lookup_insert_eq. by eexists.
    + rewrite lookup_insert_ne by done. by eexists.
  - unfold add_row in Hi. destruct (decide (next_id (issue_table s) = id)) as [<-|Hne].
    + rewrite lookup_insert_eq in Hi. injection Hi as <-. simpl. by eexists.
    + rewrite lookup_insert_ne in Hi by done. by apply (Hs id).
  - assert (is_Some (equipment_table s !! equipment_id i)) as [e He].
    { destruct (decide (issue_id = id)) as [<-|Hne].
      - rewrite lookup_insert_eq in Hi. injection Hi as <-. simpl. by apply (Hs issue_id).
      - rewrite lookup_insert_ne in Hi by done. by apply (Hs id). }
    destruct (equipment_table s !! equipment_id issue) as [e0|] eqn:He0; [|by eexists].
    destruct (negb (is_resolved issue)).
    all: destruct (decide (equipment_id issue = equipment_id i)) as [Heq|Hne];
      [rewrite Heq, lookup_insert_eq; by eexists
      |rewrite lookup_insert_ne by done; by eexists].
  - apply lookup_delete_Some in Hi as [_ Hi]. by apply (Hs id).
Qed.

(** X2. In every reachable store each issue references an equipment row
    that is in the table: issues are only raised against a row that was
    found, and no view deletes equipment. So the [eq] of [resolve_issue] is
    never [None] there, and every toggle rewrites an equipment row. *)
Theorem issues_reference_equipment_invariant cfg py_int strptime_ymd :
  (∀ clock req w,
     issues_reference_equipment (db w) →
     issues_reference_equipment (db (handle cfg py_int strptime_ymd clock req w).2))
  ∧ (∀ s, Reachable cfg py_int strptime_ymd s → issues_reference_equipment s).
Proof.
  split.
  - intros clock req w.
    apply handle_store_invariant. intros s s'. apply step_issues_reference_equipment.
  - apply Reachable_store_invariant.
    + intros id i Hi. simpl in Hi. by rewrite lookup_empty in Hi.
    + intros clock s s' Hs Hseed id i Hi.
      apply seed_if_empty_spec in Hseed as (Heq & Hkeep & _). rewrite Heq in Hi.
      destruct (Hs id i Hi) as [e He]. exists e. by apply Hkeep.
    + intros s s'. apply step_issues_reference_equipment.
Qed.

(** ** Equipment rows are never deleted *)

(** X3. No request deletes an equipment row or changes its name or its
    expiry date: every row of the table before the request is found under
    the same id after it, with the same [name] and [expiry_date]. *)
Theorem equipment_never_deleted cfg py_int strptime_ymd clock req w id e :
  equipment_table (db w) !! id = Some e →
  ∃ e', equipment_table (db (handle cfg py_int strptime_ymd clock req w).2) !! id = Some e'
        ∧ eq_name e' = eq_name e ∧ expiry_date e' = expiry_date e.
Proof.
  intros He.
  destruct (handle_store_step cfg py_int strptime_ymd clock req w) as [->|Hstep];
    [by exists e|].
  revert Hstep. generalize (db (handle cfg py_int strptime_ymd clock req w).2).
  intros s' Hstep. destruct Hstep; simpl; try by exists e.
  - rewrite lookup_fmap, He. simpl. eexists. split; [done|].
    unfold unassign. by case_match.
  - exists e. split; [|done]. by apply add_row_keeps_rows.
  - destruct (decide (eq_id = id)) as [->|Hne].
    + rewrite lookup_insert_eq. eexists. split; [done|]. simpl.
      by simplify_eq.
    + rewrite lookup_insert_ne by done. by exists e.
  - destruct (equipment_table s !! equipment_id issue) as [e0|] eqn:He0; [|by exists e].
    destruct (negb (is_resolved issue)).
    all: destruct (decide (equipment_id issue = id)) as [Heq|Hne];
      [rewrite Heq in *; rewrite lookup_insert_eq; eexists; split; [done|];
       simpl; by simplify_eq
      |rewrite lookup_insert_ne by done; by exists e].
Qed.

Lemma equipment_never_deleted_witness :
  ∃ e', equipment_table (db (run 8 resolve_1 world7)) !! 1 = Some e'
        ∧ eq_name e' = str_of "Helmet" ∧ expiry_date e' = 739934.
Proof.
  exact (equipment_never_deleted default_config decimal_int iso_date (clock_at 8)
           resolve_1 world7 1 helmet eq_refl).
Defined.

(** ** Employee codes *)

Lemma first_filter_by_None {A} (p : A → bool) (t : gmap Z A) id row :
  first (filter_by p t) = None → t !! id = Some row → p row = false.
Proof.
  intros Hnone Hrow. destruct (p row) eqn:Hp; [|done].
  destruct (first_filter_by_is_Some p t id row Hrow Hp) as [r Hr]. congruence.
Qed.

Lemma first_filter_by_Some {A} (p : A → bool) (t : gmap Z A) id row :
  first (filter_by p t) = Some (id, row) → t !! id = Some row ∧ p row = true.
Proof.
  unfold first. intros Hhead. apply elem_of_filter_by.
  destruct (filter_by p t) as [|r l]; [done|].
  simpl in Hhead. injection Hhead as ->. left.
Qed.

(** Codes identify employees, and neither code nor name is empty. *)
Definition codes_unique (s : Store) : Prop :=
  ∀ id1 id2 e1 e2,
    employee_table s !! id1 = Some e1 → employee_table s !! id2 = Some e2 →
    employee_code e1 = employee_code e2 → id1 = id2.

Definition employees_named (s : Store) : Prop :=
  ∀ id e, employee_table s !! id = Some e →
    truthy_str (employee_code e) = true ∧ truthy_str (emp_name e) = true.

Lemma step_codes_unique cfg s s' :
  codes_unique s ∧ employees_named s → store_step cfg s s' →
  codes_unique s' ∧ employees_named s'.
Proof.
  unfold codes_unique, employees_named. intros [Hu Hn] Hstep.
  destruct Hstep; simpl; try done.
  - assert (∀ id e, employee_table s !! id = Some e → employee_code e ≠ code) as Hnew.
    { intros id e He Heq.
      pose proof (first_filter_by_None _ _ id e H1 He) as Hp. unfold pystr_eqb in Hp.
      by apply bool_decide_eq_false in Hp. }
    unfold add_row. split.
    + intros id1 id2 e1 e2 H1' H2' Hcode.
      apply lookup_insert_Some in H1' as [[<- <-]|[Hne1 H1']];
        apply lookup_insert_Some in H2' as [[<- <-]|[Hne2 H2']]; try done.
      * simpl in Hcode. by destruct (Hnew id2 e2 H2').
      * simpl in Hcode. by destruct (Hnew id1 e1 H1').
      * by apply (Hu id1 id2 e1 e2).
    + intros id e He. apply lookup_insert_Some in He as [[<- <-]|[_ He]]; [done|].
      by apply (Hn id).
  - split.
    + intros id1 id2 e1 e2 H1' H2'.
      apply lookup_delete_Some in H1' as [_ H1'].
      apply lookup_delete_Some in H2' as [_ H2']. by apply Hu.
    + intros id e He. apply lookup_delete_Some in He as [_ He]. by apply (Hn id).
Qed.

Lemma seeded_employees :
  add_all [mkEmployee (str_of "E1001") (str_of "Chinmoy Das");
           mkEmployee (str_of "E1002") (str_of "Harsha Das");
           mkEmployee (str_of "E1003") (str_of "Koustav Patowary")]
    (∅ : gmap Z Employee)
  = <[3 := mkEmployee (str_of "E1003") (str_of "Koustav Patowary")]>
      (<[2 := mkEmployee (str_of "E1002") (str_of "Harsha Das")]>
         (<[1 := mkEmployee (str_of "E1001") (str_of "Chinmoy Das")]> ∅)).
Proof. reflexivity. Qed.

Lemma seed_codes_unique clock s s' :
  codes_unique s ∧ employees_named s → seed_if_empty clock s = Some s' →
  codes_unique s' ∧ employees_named s'.
Proof.
  intros [Hu Hn] Hseed.
  assert (employee_table s' = employee_table s
          ∨ employee_table s' =
              <[3 := mkEmployee (str_of "E1003") (str_of "Koustav Patowary")]>
                (<[2 := mkEmployee (str_of "E1002") (str_of "Harsha Das")]>
                   (<[1 := mkEmployee (str_of "E1001") (str_of "Chinmoy Das")]> ∅)))
    as [Heq|Heq].
  { revert Hseed. unfold seed_if_empty, count.
    destruct (Z.of_nat (length (map_to_list (employee_table s))) =? 0) eqn:Hz.
    - apply Z.eqb_eq in Hz.
      assert (employee_table s = ∅) as ->.
      { apply map_to_list_empty_iff.
        destruct (map_to_list (employee_table s)); [done|simpl in Hz; lia]. }
      rewrite seeded_employees. intros Hseed. right.
      repeat case_match; by simplify_eq.
    - intros Hseed. left. repeat case_match; by simplify_eq. }
  - unfold codes_unique, employees_named. by rewrite Heq.
  - unfold codes_unique, employees_named. rewrite Heq. split.
    + intros id1 id2 e1 e2 H1 H2 Hcode.
      repeat (apply lookup_insert_Some in H1 as [[<- <-]|[? H1]]);
        try (by rewrite lookup_empty in H1);
        repeat (apply lookup_insert_Some in H2 as [[<- <-]|[? H2]]);
        try (by rewrite lookup_empty in H2); try done.
    + intros id e He.
      repeat (apply lookup_insert_Some in He as [[<- <-]|[? He]]);
        try (by rewrite lookup_empty in He); done.
Qed.

Lemma Reachable_codes_unique cfg py_int strptime_ymd s :
  Reachable cfg py_int strptime_ymd s → codes_unique s ∧ employees_named s.
Proof.
  apply (Reachable_store_invariant cfg py_int strptime_ymd
           (λ s, codes_unique s ∧ employees_named s)).
  - split.
    + intros id1 id2 e1 e2 H1. simpl in H1. by rewrite lookup_empty in H1.
    + intros id e He. simpl in He. by rewrite lookup_empty in He.
  - intros clock s0 s'. apply seed_codes_unique.
  - intros s0 s'. apply step_codes_unique.
Qed.

(** X4. In every reachable store two different employees have different
    codes, and no employee has an empty code or an empty name:
    [add_employee] refuses blank fields and a code in use, and seeding only
    fills an empty table. Every request keeps both properties. *)
Theorem employee_codes_unique cfg py_int strptime_ymd :
  (∀ clock req w,
     codes_unique (db w) ∧ employees_named (db w) →
     codes_unique (db (handle cfg py_int strptime_ymd clock req w).2)
     ∧ employees_named (db (handle cfg py_int strptime_ymd clock req w).2))
  ∧ (∀ s, Reachable cfg py_int strptime_ymd s → codes_unique s ∧ employees_named s).
Proof.
  split.
  - intros clock req w.
    apply (handle_store_invariant cfg py_int strptime_ymd
             (λ s, codes_unique s ∧ employees_named s)).
    intros s s'. apply step_codes_unique.
  - apply Reachable_codes_unique.
Qed.

(** ** References to employees *)

Definition employee_refs_valid (s : Store) : Prop :=
  (∀ id e emp, equipment_table s !! id = Some e → employee_id e = Some emp →
     is_Some (employee_table s !! emp))
  ∧ (∀ id i emp, issue_table s !! id = Some i → raised_by_employee_id i = Some emp →
       is_Some (employee_table s !! emp)).

Lemma step_employee_refs_valid cfg s s' :
  foreign_keys cfg = true →
  employee_refs_valid s → store_step cfg s s' → employee_refs_valid s'.
Proof.
  unfold employee_refs_valid. intros Hfk [He Hi] Hstep.
  destruct Hstep; simpl.
  - split.
    + intros id e emp Hrow Hemp. destruct (He id e emp Hrow Hemp) as [x Hx].
      exists x. by apply add_row_keeps_rows.
    + intros id i emp Hrow Hemp. destruct (Hi id i emp Hrow Hemp) as [x Hx].
      exists x. by apply add_row_keeps_rows.
  - split.
    + intros id e' emp' Hrow Hemp. rewrite lookup_fmap in Hrow.
      destruct (equipment_table s !! id) as [e|] eqn:Hid; simpl in Hrow; [|done].
      injection Hrow as <-. unfold unassign, equipment_of in Hemp.
      case_bool_decide as Hdec; simpl in Hemp; [done|].
      rewrite lookup_delete_ne by congruence. by apply (He id e).
    + intros id i' emp' Hrow Hemp. rewrite lookup_fmap in Hrow.
      destruct (issue_table s !! id) as [i|] eqn:Hid; simpl in Hrow; [|done].
      injection Hrow as <-. unfold forget_raiser in Hemp.
      case_bool_decide as Hdec; simpl in Hemp; [done|].
      rewrite lookup_delete_ne by congruence. by apply (Hi id i).
  - split; [|done].
    intros id e emp Hrow Hemp. unfold add_row in Hrow.
    apply lookup_insert_Some in Hrow as [[_ <-]|[_ Hrow]]; [done|]. by apply (He id e).
  - split; [|done].
    intros id e emp Hrow Hemp.
    apply lookup_insert_Some in Hrow as [[_ <-]|[_ Hrow]]; [|by apply (He id e)].
    simpl in Hemp. injection Hemp as <-. by apply H1.
  - split; [done|].
    intros id i emp Hrow Hemp. unfold add_row in Hrow.
    apply lookup_insert_Some in Hrow as [[_ <-]|[_ Hrow]]; [|by apply (Hi id i)].
    simpl in Hemp. by apply H2.
  - split.
    + intros id e emp Hrow Hemp.
      destruct (equipment_table s !! equipment_id issue) as [e0|] eqn:He0;
        [|by apply (He id e)].
      destruct (negb (is_resolved issue)).
      * apply lookup_insert_Some in Hrow as [[_ <-]|[_ Hrow]]; [done|by apply (He id e)].
      * apply lookup_insert_Some in Hrow as [[_ <-]|[_ Hrow]]; [|by apply (He id e)].
        simpl in Hemp. by apply (He (equipment_id issue) e0).
    + intros id i emp Hrow Hemp.
      apply lookup_insert_Some in Hrow as [[_ <-]|[_ Hrow]]; [|by apply (Hi id i)].
      simpl in Hemp. by apply (Hi issue_id issue).
  - split; [done|].
    intros id i emp Hrow Hemp. apply lookup_delete_Some in Hrow as [_ Hrow].
    by apply (Hi id i).
Qed.

(** X5. On a database that enforces foreign keys, every employee id stored
    in an equipment row or as the raiser of an issue is the id of a row of
    the employee table, in every reachable store: the commit of
    [assign_equipment] and [raise_issue] fails for an unknown employee, and
    [remove_employee] clears the references before it deletes. *)
Theorem employee_refs_valid_invariant cfg py_int strptime_ymd :
  foreign_keys cfg = true →
  (∀ clock req w,
     employee_refs_valid (db w) →
     employee_refs_valid (db (handle cfg py_int strptime_ymd clock req w).2))
  ∧ (∀ s, Reachable cfg py_int strptime_ymd s → employee_refs_valid s).
Proof.
  intros Hfk. split.
  - intros clock req w. apply handle_store_invariant.
    intros s s'. by apply step_employee_refs_valid.
  - apply Reachable_store_invariant.
    + split; intros id x emp Hrow; simpl in Hrow; by rewrite lookup_empty in Hrow.
    + intros clock s s' [He Hi] Hseed.
      apply seed_if_empty_spec in Hseed as (Hiss & _ & Hnew & Hkeep & _). split.
      * intros id e emp Hrow Hemp.
        destruct (Hnew id e Hrow) as [Hold|(name & expiry & ->)]; [|done].
        destruct (He id e emp Hold Hemp) as [x Hx]. exists x. by apply Hkeep.
      * intros id i emp Hrow Hemp. rewrite Hiss in Hrow.
        destruct (Hi id i emp Hrow Hemp) as [x Hx]. exists x. by apply Hkeep.
    + intros s s'. by apply step_employee_refs_valid.
Qed.

(** X6. After [remove_employee] (as admin, for an employee that exists) no
    equipment row and no issue row references the deleted id, whatever the
    database enforces; rows that referenced other employees keep them. *)
Theorem remove_employee_clears_references w emp_id emp :
  sess_is_admin (session w) = true →
  employee_table (db w) !! emp_id = Some emp →
  let s' := db (remove_employee emp_id w).2 in
  (∀ id e, equipment_table s' !! id = Some e → employee_id e ≠ Some emp_id)
  ∧ (∀ id i, issue_table s' !! id = Some i → raised_by_employee_id i ≠ Some emp_id)
  ∧ (∀ id e other, equipment_table (db w) !! id = Some e →
       employee_id e = Some other → other ≠ emp_id →
       equipment_table s' !! id = Some e)
  ∧ size (issue_table s') = size (issue_table (db w)).
Proof.
  intros Hadmin Hemp. simpl.
  rewrite (remove_employee_eq w emp_id emp) by done. simpl.
  split; [|split; [|split]].
  - intros id e' Hrow. rewrite lookup_fmap in Hrow.
    destruct (equipment_table (db w) !! id) as [e|]; simpl in Hrow; [|done].
    injection Hrow as <-. unfold unassign, equipment_of.
    case_bool_decide as Hdec; simpl; [done|exact Hdec].
  - intros id i' Hrow. rewrite lookup_fmap in Hrow.
    destruct (issue_table (db w) !! id) as [i|]; simpl in Hrow; [|done].
    injection Hrow as <-. unfold forget_raiser.
    case_bool_decide as Hdec; simpl; [done|exact Hdec].
  - intros id e other Hrow Hother Hne. rewrite lookup_fmap, Hrow. simpl.
    unfold unassign, equipment_of. rewrite bool_decide_eq_false_2; [done|].
    rewrite Hother. congruence.
  - apply map_size_fmap.
Qed.

(** ** The access gate *)

(** The endpoints whose view is wrapped in [admin_required]. *)
Definition admin_only (ep : Endpoint) : bool :=
  match ep with
  | ep_admin_dashboard | ep_list_employees | ep_add_employee | ep_remove_employee _
  | ep_list_equipment | ep_add_equipment | ep_assign_equipment _ | ep_list_issues
  | ep_resolve_issue _ | ep_delete_issue _ => true
  | _ => false
  end.

Ltac unfold_views :=
  unfold handle, root, login, logout, admin_login, my_dashboard, my_equipment,
    admin_dashboard, list_employees, add_employee, remove_employee,
    list_equipment, add_equipment, assign_equipment, list_issues,
    raise_issue, resolve_issue, delete_issue,
    admin_required, login_required, get_or_404, commit, flash, flash_str,
    set_session, render, redirect, abort in *.

Ltac view_cases :=
  unfold_views; simpl in *; repeat (case_match; simpl in *).

(** X7. A request that does not carry the admin flag is turned away from
    every admin view: the answer is the redirect to the admin login (or 405
    for a method the route does not take) and the store is untouched. The
    only write open to it is raising an issue, so whatever it asks for, the
    employee and equipment tables and all existing issue rows stay as they
    are, and it does not gain the admin flag unless it is the admin login. *)
Theorem admin_gate cfg py_int strptime_ymd clock req w :
  sess_is_admin (session w) = false →
  let r := handle cfg py_int strptime_ymd clock req w in
  (admin_only (endpoint req) = true →
   db r.2 = db w ∧ (r.1 = Redirect ep_admin_login ∨ r.1 = Abort 405))
  ∧ employee_table (db r.2) = employee_table (db w)
  ∧ equipment_table (db r.2) = equipment_table (db w)
  ∧ (∀ id i, issue_table (db w) !! id = Some i → issue_table (db r.2) !! id = Some i)
  ∧ (endpoint req ≠ ep_admin_login → sess_is_admin (session r.2) = false).
Proof.
  intros Hno. destruct req as [m ep f]. simpl.
  split; [|split; [|split; [|split]]].
  - intros Hep. destruct ep, m; try discriminate Hep; view_cases; auto; try congruence.
  - destruct ep, m; view_cases; auto; try congruence.
  - destruct ep, m; view_cases; auto; try congruence.
  - intros id i Hi. destruct ep, m; view_cases; auto; try congruence.
    all: by apply add_row_keeps_rows.
  - intros Hep. destruct ep, m; try (by destruct Hep); view_cases; auto; try congruence.
Qed.

Lemma admin_gate_witness :
  db (run 6 resolve_1 world5) = db world5
  ∧ db (run 6 (mkRequest GET (ep_remove_employee 1) []) world5) = db world5.
Proof.
  split.
  - exact (proj1 (proj1 (admin_gate default_config decimal_int iso_date (clock_at 6)
                          resolve_1 world5 eq_refl) eq_refl)).
  - exact (proj1 (proj1 (admin_gate default_config decimal_int iso_date (clock_at 6)
                          (mkRequest GET (ep_remove_employee 1) []) world5 eq_refl)
                    eq_refl)).
Defined.

(** The session carries at most one identity. *)
Definition session_exclusive (s : Session) : Prop :=
  sess_is_admin s = true → sess_employee_id s = None.

(** X8. A session never holds the admin flag together with an employee
    identity: every request keeps this, because each login clears the
    session before it sets its own key. Only the three views [login],
    [admin_login] and [logout] change who is logged in; every other request
    leaves the employee id, the employee name and the admin flag as they
    were. *)
Theorem session_identity cfg py_int strptime_ymd clock req w :
  let s' := session (handle cfg py_int strptime_ymd clock req w).2 in
  (session_exclusive (session w) → session_exclusive s')
  ∧ (endpoint req ≠ ep_login → endpoint req ≠ ep_admin_login →
     endpoint req ≠ ep_logout →
     sess_employee_id s' = sess_employee_id (session w)
     ∧ sess_employee_name s' = sess_employee_name (session w)
     ∧ sess_is_admin s' = sess_is_admin (session w)).
Proof.
  destruct req as [m ep f]. unfold session_exclusive. simpl. split.
  - intros Hex. destruct ep, m; view_cases; auto; try congruence.
    all: intros Hadm; apply Hex in Hadm; congruence.
  - intros H1 H2 H3. destruct ep, m; try done; view_cases; auto.
Qed.

Lemma session_identity_witness :
  sess_is_admin (session world4) = true
  ∧ sess_is_admin (session world5) = false
  ∧ sess_employee_id (session world5) = Some 1
  ∧ (sess_is_admin (session world5) = true → sess_employee_id (session world5) = None).
Proof.
  split; [reflexivity|]. split; [reflexivity|]. split; [reflexivity|].
  apply (proj1 (session_identity default_config decimal_int iso_date (clock_at 5)
                  (mkRequest POST ep_login [("employee_code"%string, str_of "E1001")])
                  world4)).
  intros _. reflexivity.
Defined.

(** ** Logging in *)

(** X9. [login] never writes to the store. Where codes are unique, a
    posted code that (stripped) is the code of an employee opens a session
    for exactly that employee, without the admin flag and without the
    messages queued before; a code of no employee leaves the identity of the
    session as it was and shows the notice on the login page. *)
Theorem login_by_code req w :
  method req = POST →
  codes_unique (db w) →
  let code := strip (form_get_or_empty "employee_code" req) in
  let r := login req w in
  db r.2 = db w
  ∧ (∀ id e, employee_table (db w) !! id = Some e → employee_code e = code →
       r.1 = Redirect ep_my_dashboard
       ∧ session r.2 =
           mkSession (Some id) (Some (emp_name e)) false
             [str_of "Welcome, " ++ emp_name e ++ str_of "!"])
  ∧ ((∀ id e, employee_table (db w) !! id = Some e → employee_code e ≠ code) →
       r.1 = Render login_page (flashes (session w) ++ [str_of "Invalid Employee ID."])
       ∧ sess_employee_id (session r.2) = sess_employee_id (session w)
       ∧ sess_is_admin (session r.2) = sess_is_admin (session w)).
Proof.
  intros Hpost Hu. simpl. unfold login. rewrite Hpost.
  destruct (first (filter_by
                     (λ e, pystr_eqb (employee_code e)
                             (strip (form_get_or_empty "employee_code" req)))
                     (employee_table (db w)))) as [[id' e']|] eqn:Hfirst.
  - apply first_filter_by_Some in Hfirst as [Hrow Hp].
    unfold pystr_eqb in Hp. apply bool_decide_eq_true in Hp.
    split; [done|]. split.
    + intros id e He Hcode.
      assert (id' = id) as -> by (apply (Hu id' id e' e); congruence).
      assert (e' = e) as -> by congruence. done.
    + intros Hnone. by destruct (Hnone id' e' Hrow).
  - split; [done|]. split; [|done].
    intros id e He Hcode.
    pose proof (first_filter_by_None _ _ id e Hfirst He) as Hp.
    unfold pystr_eqb in Hp. by apply bool_decide_eq_false in Hp.
Qed.

Lemma login_by_code_witness :
  session (login (mkRequest POST ep_login [("employee_code"%string, str_of " E1001")])
             world4).2
  = mkSession (Some 1) (Some (str_of "Asha")) false [str_of "Welcome, Asha!"].
Proof.
  assert (codes_unique (db world4)) as Hu.
  { apply (Reachable_codes_unique default_config decimal_int iso_date).
    repeat apply Reachable_handle. apply reach_empty. }
  destruct (login_by_code
              (mkRequest POST ep_login [("employee_code"%string, str_of " E1001")])
              world4 eq_refl Hu) as (_ & Hok & _).
  exact (proj2 (Hok 1 (mkEmployee (str_of "E1001") (str_of "Asha")) eq_refl eq_refl)).
Defined.

(** X10. [admin_login] never writes to the store, and a POST sets the admin
    flag exactly when the stripped [pin] field equals [ADMIN_PIN]: then the
    session is cleared and holds only the flag; otherwise the identity of
    the session is unchanged and the page shows "Invalid PIN.". *)
Theorem admin_login_checks_pin cfg req w :
  method req = POST →
  let pin := strip (form_get_or_empty "pin" req) in
  let r := admin_login cfg req w in
  db r.2 = db w
  ∧ (pin = ADMIN_PIN cfg →
       r.1 = Redirect ep_admin_dashboard
       ∧ session r.2 = mkSession None None true [str_of "Admin login successful."])
  ∧ (pin ≠ ADMIN_PIN cfg →
       r.1 = Render admin_login_page (flashes (session w) ++ [str_of "Invalid PIN."])
       ∧ sess_employee_id (session r.2) = sess_employee_id (session w)
       ∧ sess_is_admin (session r.2) = sess_is_admin (session w)).
Proof.
  intros Hpost. simpl. unfold admin_login, pystr_eqb. rewrite Hpost.
  case_bool_decide as Hpin; split; try done; split; try done.
Qed.

Lemma admin_login_checks_pin_witness :
  sess_is_admin
    (session (admin_login default_config
                (mkRequest POST ep_admin_login [("pin"%string, str_of "0000")])
                world5).2) = false.
Proof.
  destruct (admin_login_checks_pin default_config
              (mkRequest POST ep_admin_login [("pin"%string, str_of "0000")])
              world5 eq_refl) as (_ & _ & Hbad).
  destruct Hbad as (_ & _ & Hadm); [by vm_compute|]. rewrite Hadm. reflexivity.
Defined.

(** ** Raising an issue *)

(** X11. No issue is raised against retired equipment, whoever asks and
    with whatever method: the answer is the redirect to the root with a
    notice and the store is untouched. An id of no equipment row gives 404
    and changes nothing, and a blank description is sent back to the form
    with a notice, unsaved. *)
Theorem raise_issue_refused cfg clock req eq_id w :
  (equipment_table (db w) !! eq_id = None →
   raise_issue cfg clock req eq_id w = (Abort 404, w))
  ∧ (∀ eq, equipment_table (db w) !! eq_id = Some eq → is_retired eq = true →
       (raise_issue cfg clock req eq_id w).1 = Redirect ep_root
       ∧ db (raise_issue cfg clock req eq_id w).2 = db w
       ∧ flashes (session (raise_issue cfg clock req eq_id w).2) =
           flashes (session w)
           ++ [str_of "This equipment is retired. You cannot raise a new issue."])
  ∧ (∀ eq, equipment_table (db w) !! eq_id = Some eq → is_retired eq = false →
       method req = POST →
       truthy_str (strip (form_get_or_empty "description" req)) = false →
       (raise_issue cfg clock req eq_id w).1 = Redirect (ep_raise_issue eq_id)
       ∧ db (raise_issue cfg clock req eq_id w).2 = db w
       ∧ flashes (session (raise_issue cfg clock req eq_id w).2) =
           flashes (session w) ++ [str_of "Description is required."]).
Proof.
  unfold raise_issue, get_or_404. split; [|split].
  - by intros ->.
  - intros eq -> ->. done.
  - intros eq -> -> -> ->. done.
Qed.

Lemma raise_issue_refused_witness :
  db (raise_issue default_config (clock_at 9)
        (mkRequest POST (ep_raise_issue 1) [("description"%string, str_of "cracked")])
        1 world8).2 = db world8.
Proof.
  destruct (raise_issue_refused default_config (clock_at 9)
              (mkRequest POST (ep_raise_issue 1) [("description"%string, str_of "cracked")])
              1 world8) as (_ & Hretired & _).
  exact (proj1 (proj2 (Hretired retired_helmet eq_refl eq_refl))).
Defined.

(** The employee id that [raise_issue] records: the one of the session,
    unless it is missing or zero. *)
Definition raiser_of (s : Session) : option Z :=
  if truthy_int (sess_employee_id s) then sess_employee_id s else None.

(** X12. A POST with a non-blank description for an active equipment row
    stores one new issue: open, unstamped, raised at the clock, by the
    employee of the session (by nobody for an admin or anonymous session),
    with the stripped description. It gets an unused id, the other issues
    and the other two tables are untouched, and the table has one row more.
    (On a database that enforces foreign keys the raiser must be an
    employee that still exists.) *)
Theorem raise_issue_creates_open_issue cfg clock req eq_id w eq :
  equipment_table (db w) !! eq_id = Some eq →
  is_retired eq = false →
  method req = POST →
  truthy_str (strip (form_get_or_empty "description" req)) = true →
  (foreign_keys cfg = true →
   ∀ r, raiser_of (session w) = Some r → is_Some (employee_table (db w) !! r)) →
  let s' := db (raise_issue cfg clock req eq_id w).2 in
  let new_id := next_id (issue_table (db w)) in
  issue_table (db w) !! new_id = None
  ∧ issue_table s' !! new_id =
      Some (mkIssue eq_id (strip (form_get_or_empty "description" req))
              (Some (utcnow clock 0)) (raiser_of (session w)) false None)
  ∧ (∀ id i, issue_table (db w) !! id = Some i → issue_table s' !! id = Some i)
  ∧ size (issue_table s') = S (size (issue_table (db w)))
  ∧ equipment_table s' = equipment_table (db w)
  ∧ employee_table s' = employee_table (db w).
Proof.
  intros Heq Hact Hpost Hdesc Hfk. simpl.
  unfold raise_issue, get_or_404. rewrite Heq, Hact, Hpost, Hdesc. simpl.
  fold (raiser_of (session w)).
  assert (foreign_keys cfg
          && match raiser_of (session w) with
             | Some r => negb (bool_decide (is_Some (employee_table (db w) !! r)))
             | None => false
             end = false) as ->.
  { destruct (foreign_keys cfg); [|done]. simpl.
    destruct (raiser_of (session w)) as [r|]; [|done].
    by rewrite (bool_decide_eq_true_2 _ (Hfk eq_refl r eq_refl)). }
  unfold commit, flash. simpl.
  assert (∀ w', db ((if sess_is_admin (session w) then redirect ep_admin_dashboard
                     else if truthy_int (sess_employee_id (session w))
                          then redirect ep_my_dashboard
                          else redirect ep_root) w').2 = db w') as ->.
  { intros w'. by repeat case_match. }
  simpl.
  match goal with
  | |- context [add_row ?row (issue_table (db w))] =>
      destruct (add_row_keeps_rows row (issue_table (db w))) as (Hnew & Hold & Hsize)
  end.
  split; [apply next_id_fresh|].
  split; [exact Hnew|].
  split; [intros id i Hi; exact (proj2 (Hold id i Hi))|].
  split; [exact Hsize|done].
Qed.

Lemma raise_issue_creates_open_issue_witness :
  issue_table (db world6) !! 1 = Some strap_broken
  ∧ size (issue_table (db world6)) = 1%nat.
Proof.
  destruct (raise_issue_creates_open_issue default_config (clock_at 6)
              (mkRequest POST (ep_raise_issue 1)
                 [("description"%string, str_of "strap broken")])
              1 world5 helmet eq_refl eq_refl eq_refl eq_refl)
    as (_ & Hnew & _ & Hsize & _).
  - intros Hfk. discriminate Hfk.
  - split; [exact Hnew|exact Hsize].
Defined.

(** ** The worked run, continued *)

Lemma resolved_iff_stamped_invariant_witness :
  issue_table (db world8) !! 1 = Some strap_resolved
  ∧ (is_resolved strap_resolved = true ↔ resolved_on strap_resolved ≠ None).
Proof.
  split; [reflexivity|].
  exact (proj2 (resolved_iff_stamped_invariant default_config decimal_int iso_date)
           (db world8) world8_reachable 1 strap_resolved eq_refl).
Defined.

Lemma issues_reference_equipment_invariant_witness :
  is_Some (equipment_table (db world8) !! equipment_id strap_resolved).
Proof.
  exact (proj2 (issues_reference_equipment_invariant default_config decimal_int iso_date)
           (db world8) world8_reachable 1 strap_resolved eq_refl).
Defined.

Lemma employee_codes_unique_witness :
  truthy_str (employee_code (mkEmployee (str_of "E1001") (str_of "Asha"))) = true
  ∧ truthy_str (emp_name (mkEmployee (str_of "E1001") (str_of "Asha"))) = true.
Proof.
  exact (proj2 (proj2 (employee_codes_unique default_config decimal_int iso_date)
                  (db world7) world7_reachable)
           1 (mkEmployee (str_of "E1001") (str_of "Asha")) eq_refl).
Defined.

(** The same run on a database that enforces foreign keys. *)
Definition strict_config : Config := mkConfig 30 (str_of "1234") true.

Definition strict_run (k : Z) (req : Request) (w : World) : World :=
  (handle strict_config decimal_int iso_date (clock_at k) req w).2.

Definition strict_world : World :=
  strict_run 4 assign_1_to_1
    (strict_run 3
       (mkRequest POST ep_add_equipment
          [("name"%string, str_of "Helmet"); ("expiry_date"%string, str_of "2026-11-14")])
       (strict_run 2
          (mkRequest POST ep_add_employee
             [("employee_code"%string, str_of "E1001"); ("name"%string, str_of "Asha")])
          (strict_run 1 admin_logs_in world0))).

Lemma employee_refs_valid_invariant_witness :
  equipment_table (db strict_world) !! 1 = Some helmet
  ∧ is_Some (employee_table (db strict_world) !! 1).
Proof.
  split; [reflexivity|].
  assert (Reachable strict_config decimal_int iso_date (db strict_world)) as Hreach
    by (repeat apply Reachable_handle; apply reach_empty).
  destruct (employee_refs_valid_invariant strict_config decimal_int iso_date eq_refl)
    as [_ Hall].
  exact (proj1 (Hall (db strict_world) Hreach) 1 helmet 1 eq_refl eq_refl).
Defined.

Lemma remove_employee_clears_references_witness :
  employee_id (mkEquipment (str_of "Helmet") 739934 None false None) ≠ Some 1
  ∧ size (issue_table (db (remove_employee 1 world7).2)) = 1%nat.
Proof.
  destruct (remove_employee_clears_references world7 1
              (mkEmployee (str_of "E1001") (str_of "Asha")) eq_refl eq_refl)
    as (Heq & _ & _ & Hsize).
  split.
  - apply (Heq 1). reflexivity.
  - rewrite Hsize. reflexivity.
Defined.

(** ** Creating rows *)

(** X13. An admin's POST with a non-blank name and a non-blank code that no
    employee has stores one new employee under an unused id, with the
    stripped code and name; the employees already there keep their rows,
    the table has one row more, and the other two tables are untouched. *)
Theorem add_employee_creates_employee req w :
  sess_is_admin (session w) = true →
  method req = POST →
  let name := strip (form_get_or_empty "name" req) in
  let code := strip (form_get_or_empty "employee_code" req) in
  truthy_str name = true →
  truthy_str code = true →
  (∀ id e, employee_table (db w) !! id = Some e → employee_code e ≠ code) →
  let r := add_employee req w in
  let new_id := next_id (employee_table (db w)) in
  r.1 = Redirect ep_list_employees
  ∧ employee_table (db w) !! new_id = None
  ∧ employee_table (db r.2) !! new_id = Some (mkEmployee code name)
  ∧ (∀ id e, employee_table (db w) !! id = Some e →
       employee_table (db r.2) !! id = Some e)
  ∧ size (employee_table (db r.2)) = S (size (employee_table (db w)))
  ∧ equipment_table (db r.2) = equipment_table (db w)
  ∧ issue_table (db r.2) = issue_table (db w).
Proof.
  intros Hadmin Hpost name code Hname Hcode Hfree. simpl.
  unfold add_employee, admin_required. rewrite Hadmin, Hpost.
  fold name code. rewrite Hname, Hcode. simpl.
  destruct (first (filter_by (λ e, pystr_eqb (employee_code e) code)
                     (employee_table (db w)))) as [[id e]|] eqn:Hfirst.
  - apply first_filter_by_Some in Hfirst as [Hrow Hp].
    unfold pystr_eqb in Hp. apply bool_decide_eq_true in Hp.
    by destruct (Hfree id e Hrow).
  - unfold commit, flash, redirect. simpl.
    destruct (add_row_keeps_rows (mkEmployee code name) (employee_table (db w)))
      as (Hnew & Hold & Hsize).
    split; [done|]. split; [apply next_id_fresh|]. split; [exact Hnew|].
    split; [intros id e He; exact (proj2 (Hold id e He))|].
    split; [exact Hsize|done].
Qed.

Lemma add_employee_creates_employee_witness :
  employee_table (db world2) !! 1 = Some (mkEmployee (str_of "E1001") (str_of "Asha"))
  ∧ size (employee_table (db world2)) = 1%nat.
Proof.
  destruct (add_employee_creates_employee
              (mkRequest POST ep_add_employee
                 [("employee_code"%string, str_of "E1001"); ("name"%string, str_of "Asha")])
              world1 eq_refl eq_refl eq_refl eq_refl)
    as (_ & _ & Hnew & _ & Hsize & _).
  - intros id e He. simpl in He. by rewrite lookup_empty in He.
  - split; [exact Hnew|exact Hsize].
Defined.

(** X14. [add_equipment] (admin, POST) saves nothing without a non-blank
    name and a non-empty date field: it flashes "All fields are required."
    and goes back to the form. A date field that does not parse ends the
    request in an error response with the world as it was. Otherwise one
    row is stored under an unused id with the stripped name and the parsed
    date: unassigned, active, [retired_on] null; the rows already there
    and the other tables are untouched. *)
Theorem add_equipment_behaviour strptime_ymd req w :
  sess_is_admin (session w) = true →
  method req = POST →
  let name := strip (form_get_or_empty "name" req) in
  let r := add_equipment strptime_ymd req w in
  ((truthy_str name = false
    ∨ form_get "expiry_date" (form req) = None
    ∨ form_get "expiry_date" (form req) = Some []) →
   r.1 = Redirect ep_add_equipment ∧ db r.2 = db w
   ∧ flashes (session r.2) = flashes (session w) ++ [str_of "All fields are required."])
  ∧ (∀ raw, truthy_str name = true → form_get "expiry_date" (form req) = Some raw →
       truthy_str raw = true → strptime_ymd raw = None →
       r = (Abort 500, w))
  ∧ (∀ raw expiry, truthy_str name = true →
       form_get "expiry_date" (form req) = Some raw → truthy_str raw = true →
       strptime_ymd raw = Some expiry →
       r.1 = Redirect ep_list_equipment
       ∧ equipment_table (db w) !! next_id (equipment_table (db w)) = None
       ∧ equipment_table (db r.2) !! next_id (equipment_table (db w)) =
           Some (mkEquipment name expiry None false None)
       ∧ (∀ id e, equipment_table (db w) !! id = Some e →
            equipment_table (db r.2) !! id = Some e)
       ∧ employee_table (db r.2) = employee_table (db w)
       ∧ issue_table (db r.2) = issue_table (db w)).
Proof.
  intros Hadmin Hpost name. simpl.
  unfold add_equipment, admin_required. rewrite Hadmin, Hpost. fold name.
  split; [|split].
  - intros [Hname|[Hnone|Hempty]].
    + rewrite Hname. simpl. by destruct (form_get "expiry_date" (form req)).
    + by rewrite Hnone.
    + rewrite Hempty. simpl. by rewrite orb_true_r.
  - intros raw Hname Hraw Htruthy Hparse.
    by rewrite Hraw, Hname, Htruthy, Hparse.
  - intros raw expiry Hname Hraw Htruthy Hparse.
    rewrite Hraw, Hname, Htruthy, Hparse. simpl.
    unfold commit, flash, redirect. simpl.
    destruct (add_row_keeps_rows (mkEquipment name expiry None false None)
                (equipment_table (db w))) as (Hnew & Hold & _).
    split; [done|]. split; [apply next_id_fresh|]. split; [exact Hnew|].
    split; [intros id e He; exact (proj2 (Hold id e He))|done].
Qed.

Lemma add_equipment_behaviour_witness :
  add_equipment iso_date
    (mkRequest POST ep_add_equipment
       [("name"%string, str_of "Gloves"); ("expiry_date"%string, str_of "2026-02-30")])
    world7 = (Abort 500, world7).
Proof.
  destruct (add_equipment_behaviour iso_date
              (mkRequest POST ep_add_equipment
                 [("name"%string, str_of "Gloves");
                  ("expiry_date"%string, str_of "2026-02-30")])
              world7 eq_refl eq_refl) as (_ & Hbad & _).
  exact (Hbad (str_of "2026-02-30") eq_refl eq_refl eq_refl eq_refl).
Defined.

(** ** What the toggle leaves alone *)

(** X15. A resolve toggle (as admin) rewrites the toggled issue row and the
    equipment row that issue references, and nothing else: the employee
    table is unchanged, every other issue row and every other equipment row
    is as before, so the state of the other issues on the same item plays
    no part. When the issue references no equipment row the equipment
    table is unchanged and only the issue is toggled. *)
Theorem resolve_issue_frame clock w issue_id issue :
  sess_is_admin (session w) = true →
  issue_table (db w) !! issue_id = Some issue →
  let s' := db (resolve_issue clock issue_id w).2 in
  employee_table s' = employee_table (db w)
  ∧ (∀ id, id ≠ issue_id → issue_table s' !! id = issue_table (db w) !! id)
  ∧ (∀ id, id ≠ equipment_id issue →
       equipment_table s' !! id = equipment_table (db w) !! id)
  ∧ (equipment_table (db w) !! equipment_id issue = None →
       equipment_table s' = equipment_table (db w)
       ∧ ∃ i', issue_table s' !! issue_id = Some i'
               ∧ is_resolved i' = negb (is_resolved issue)).
Proof.
  intros Hadmin Hissue. simpl.
  unfold resolve_issue, admin_required, get_or_404. rewrite Hadmin, Hissue.
  unfold commit, flash, redirect. simpl.
  split; [done|]. split; [|split].
  - intros id Hne. by rewrite lookup_insert_ne.
  - intros id Hne.
    destruct (equipment_table (db w) !! equipment_id issue); [|done].
    destruct (negb (is_resolved issue)); by rewrite lookup_insert_ne.
  - intros Hnone. rewrite Hnone. split; [done|].
    eexists. by rewrite lookup_insert_eq.
Qed.

Lemma resolve_issue_frame_witness :
  issue_table (db (resolve_issue (clock_at 9) 1 backlog).2) !! 2
  = Some (mkIssue 5 (str_of "buckle stuck") (Some 200) None false None).
Proof.
  destruct (resolve_issue_frame (clock_at 9) backlog 1
              (mkIssue 5 (str_of "frayed") (Some 100) None true (Some 500))
              eq_refl eq_refl) as (_ & Hissues & _).
  rewrite (Hissues 2) by discriminate. reflexivity.
Defined.
